(** * luckycharm-tg: the number acquisition and code monitoring engine

    A shallow embedding of the engine logic of [marketplace_gui.py]
    (class [SMSMarketplace]) and of [session_guard.py] (class
    [SessionGuard]), followed by the properties of the design document
    checked against it.

    Conventions of the embedding.
    - Python floats holding money or seconds are fixed-point integers in
      hundredths ([Z]): $2.00 is [200].
    - A Python exception is a value of [Exn]; a call that may raise returns
      a [result]; [try ... except] is [try_except].
    - [random] and [datetime.now()] are inputs of the operation that uses
      them; the answer a user gives to a [messagebox.askyesno] is an input
      as well.
    - Tk widget updates and console logging do not touch the engine state
      and are left out; a dialog that reports the outcome of an operation
      is the operation's returned outcome. *)

From stdpp Require Import base list strings pretty gmap.
From Stdlib Require Import ZArith Lia Ascii Sorted Permutation.
Local Open Scope Z_scope.

(** ** Exceptions *)

Inductive Exn : Type :=
| InsufficientFunds
| ValueError
| TypeError
| RuntimeError
| AttributeError
| ImportError
| OSError
| DatabaseError
| RecursionError.

Inductive result (A : Type) : Type :=
| Ok (a : A)
| Raise (e : Exn).
Arguments Ok {A} a.
Arguments Raise {A} e.

Definition bind {A B : Type} (c : result A) (k : A -> result B) : result B :=
  match c with
  | Ok a => k a
  | Raise e => Raise e
  end.

Notation "x <- c1 ;; c2" := (bind c1 (fun x => c2))
  (at level 100, c1 at next level, right associativity).

(** [try: body except Exception: handler] *)
Definition try_except {A : Type} (body : result A) (handler : Exn -> A) : A :=
  match body with
  | Ok a => a
  | Raise e => handler e
  end.

(** ** Ledger: [WalletManager] *)

Module Wallet.

Inductive Reason : Type :=
| CartPurchase (items : nat)          (* "SMS numbers purchase - {n} items" *)
| SinglePurchase (service country : string)  (* "SMS number: {service} ({country})" *)
| TopUp (amount : Z).                 (* "Quick top-up ${amount}" *)

Record LedgerEntry : Type := {
  delta : Z;
  reason : Reason;
  resultingBalance : Z
}.

Record WalletManager : Type := {
  balance : Z;
  entries : list LedgerEntry
}.

(** [WalletManager.__init__]: [self.balance = 50.00]. *)
Definition init : WalletManager := {| balance := 5000; entries := [] |}.

(** Modelled from the spec: [WalletManager.get_balance] is called by the
    engine but the class under src/ only sets the opening balance; the
    spec's [Balance() -> Amount]. *)
Definition get_balance (w : WalletManager) : Z := balance w.

(** Modelled from the spec: [WalletManager.deposit], missing from src/;
    the spec's [Credit(amount, reason)], appending one entry to the
    append-only log. *)
Definition deposit (amount : Z) (r : Reason) (w : WalletManager) : WalletManager :=
  {| balance := balance w + amount;
     entries := entries w ++
       [{| delta := amount; reason := r; resultingBalance := balance w + amount |}] |}.

(** The wallet after a debit of [amount] has been applied. *)
Definition debited (amount : Z) (r : Reason) (w : WalletManager) : WalletManager :=
  {| balance := balance w - amount;
     entries := entries w ++
       [{| delta := - amount; reason := r;
           resultingBalance := balance w - amount |}] |}.

(** Modelled from the spec: [WalletManager.spend], missing from src/;
    the spec's [Debit(amount, reason) -> Result<TransactionId,
    InsufficientFunds>]. The transaction id is the position of the new
    entry in the log. *)
Definition spend (amount : Z) (r : Reason) (w : WalletManager)
  : result (nat * WalletManager) :=
  if balance w <? amount then Raise InsufficientFunds
  else Ok (length (entries w), debited amount r w).

(** The balance and every balance the log has recorded are at least
    zero. *)
Definition solvent (w : WalletManager) : Prop :=
  0 <= balance w /\ Forall (fun e => 0 <= resultingBalance e) (entries w).

End Wallet.

(** ** Data model *)

Record Country : Type := {
  code : string;
  name : string;
  flag : string
}.

(** One entry of [self.providers], as built by
    [_generate_marketplace_data]. *)
Module Listing.
Record t : Type := {
  id : string;
  service : string;
  country : Country;
  provider : string;
  price : Z;
  number : string;
  success_rate : Z;
  avg_time : Z;
  quality_score : Z
}.
End Listing.

Inductive Status : Type := active | telegram_ready | used | expired.

(** One entry of [self.owned_numbers]. *)
Module Owned.
Record t : Type := {
  service : string;
  country : string;
  number : string;
  price : Z;
  activation_id : string;
  status : Status;
  purchase_date : string;
  provider : string;
  success_rate : Z;
  last_used : string
}.

Definition with_status (s : Status) (when : string) (n : t) : t :=
  {| service := service n; country := country n; number := number n;
     price := price n; activation_id := activation_id n;
     status := s;
     purchase_date := purchase_date n; provider := provider n;
     success_rate := success_rate n;
     last_used := when |}.
End Owned.

(** One entry of the [purchased] list of a cart run. *)
Module Purchased.
Record t : Type := {
  service : string;
  country : string;
  number : string;
  price : Z;
  activation_id : string;
  status : Status
}.
End Purchased.

(** ** Durable store of owned numbers *)

(** What [owned_numbers.json] holds: a JSON document that [json.load]
    reads back as a list of owned numbers, or bytes it rejects. *)
Inductive FileContent : Type :=
| Json (numbers : list Owned.t)
| Garbage.

(** [None] when the file does not exist. *)
Definition NumbersFile : Type := option FileContent.

Definition json_load (c : FileContent) : result (list Owned.t) :=
  match c with
  | Json l => Ok l
  | Garbage => Raise ValueError
  end.

(** [_load_owned_numbers]: the [return []] after the [try] is reached when
    the file is absent and when the handler has run. *)
Definition _load_owned_numbers (numbers_file : NumbersFile) : result (list Owned.t) :=
  match
    try_except
      (match numbers_file with
       | Some content => l <- json_load content ;; Ok (Some l)
       | None => Ok None
       end)
      (fun _ => None)
  with
  | Some l => Ok l
  | None => Ok []
  end.

(** ** The marketplace object *)

Record SMSMarketplace : Type := {
  wallet : Wallet.WalletManager;
  providers : list Listing.t;
  cart : list Listing.t;
  selected_numbers : list string;
  owned_numbers : list Owned.t;
  numbers_file : NumbersFile;
  disk_writable : bool
}.

Definition set_wallet (w : Wallet.WalletManager) (m : SMSMarketplace) : SMSMarketplace :=
  {| wallet := w; providers := providers m; cart := cart m;
     selected_numbers := selected_numbers m; owned_numbers := owned_numbers m;
     numbers_file := numbers_file m; disk_writable := disk_writable m |}.

Definition set_cart (c : list Listing.t) (sel : list string) (m : SMSMarketplace)
  : SMSMarketplace :=
  {| wallet := wallet m; providers := providers m; cart := c;
     selected_numbers := sel; owned_numbers := owned_numbers m;
     numbers_file := numbers_file m; disk_writable := disk_writable m |}.

Definition set_owned_numbers (o : list Owned.t) (m : SMSMarketplace) : SMSMarketplace :=
  {| wallet := wallet m; providers := providers m; cart := cart m;
     selected_numbers := selected_numbers m; owned_numbers := o;
     numbers_file := numbers_file m; disk_writable := disk_writable m |}.

(** [_save_owned_numbers]: a failed write is caught and logged. *)
Definition _save_owned_numbers (m : SMSMarketplace) : SMSMarketplace :=
  if disk_writable m then
    {| wallet := wallet m; providers := providers m; cart := cart m;
       selected_numbers := selected_numbers m; owned_numbers := owned_numbers m;
       numbers_file := Some (Json (owned_numbers m));
       disk_writable := disk_writable m |}
  else m.

(** [__init__]: an empty cart, the stored numbers, a fresh wallet. *)
Definition init (catalog : list Listing.t) (file : NumbersFile) (writable : bool)
  : result SMSMarketplace :=
  owned <- _load_owned_numbers file ;;
  Ok {| wallet := Wallet.init; providers := catalog; cart := [];
        selected_numbers := []; owned_numbers := owned;
        numbers_file := file; disk_writable := writable |}.

(** ** Purchase orchestration *)

(** [sum(item['price'] for item in self.cart)] *)
Definition total_price (items : list Listing.t) : Z :=
  fold_left (fun acc item => acc + Listing.price item) items 0.

(** The random source of a cart run, by position in the cart: [None] when
    [random.random() > 0.1] is false for that item, [Some n] when it is
    true and [random.randint(100000, 999999)] then draws [n]. *)
Definition Rng : Type := nat -> option Z.

(** [datetime.now().strftime(...)] at the time an item is processed. *)
Definition Clock : Type := nat -> string.

(** [f"act_{n}"] *)
Definition activation (n : Z) : string := "act_" +:+ pretty n.

Definition purchased_item (item : Listing.t) (n : Z) : Purchased.t :=
  {| Purchased.service := Listing.service item;
     Purchased.country := name (Listing.country item);
     Purchased.number := Listing.number item;
     Purchased.price := Listing.price item;
     Purchased.activation_id := activation n;
     Purchased.status := active |}.

Definition owned_number (item : Listing.t) (n : Z) (now : string) : Owned.t :=
  {| Owned.service := Listing.service item;
     Owned.country := name (Listing.country item);
     Owned.number := Listing.number item;
     Owned.price := Listing.price item;
     Owned.activation_id := activation n;
     Owned.status := active;
     Owned.purchase_date := now;
     Owned.provider := Listing.provider item;
     Owned.success_rate := Listing.success_rate item;
     Owned.last_used := "Never" |}.

(** The loop of [process_items]: [purchased] and [self.owned_numbers] grow
    by one entry for an item whose draw succeeds and are left alone
    otherwise. *)
Fixpoint process_items (rng : Rng) (now : Clock) (i : nat) (items : list Listing.t)
    (purchased : list Purchased.t) (owned : list Owned.t)
  : list Purchased.t * list Owned.t :=
  match items with
  | [] => (purchased, owned)
  | item :: rest =>
      match rng i with
      | Some n =>
          process_items rng now (S i) rest
            (purchased ++ [purchased_item item n])
            (owned ++ [owned_number item n (now i)])
      | None => process_items rng now (S i) rest purchased owned
      end
  end.

(** What a cart run adds to [purchased] and to [self.owned_numbers], and
    the cart items on either side of the draw. *)
Fixpoint bought (rng : Rng) (i : nat) (items : list Listing.t) : list Purchased.t :=
  match items with
  | [] => []
  | item :: rest =>
      match rng i with
      | Some n => purchased_item item n :: bought rng (S i) rest
      | None => bought rng (S i) rest
      end
  end.

Fixpoint acquired (rng : Rng) (now : Clock) (i : nat) (items : list Listing.t)
  : list Owned.t :=
  match items with
  | [] => []
  | item :: rest =>
      match rng i with
      | Some n => owned_number item n (now i) :: acquired rng now (S i) rest
      | None => acquired rng now (S i) rest
      end
  end.

Fixpoint allocated (rng : Rng) (i : nat) (items : list Listing.t) : list Listing.t :=
  match items with
  | [] => []
  | item :: rest =>
      match rng i with
      | Some _ => item :: allocated rng (S i) rest
      | None => allocated rng (S i) rest
      end
  end.

Fixpoint unallocated (rng : Rng) (i : nat) (items : list Listing.t) : list Listing.t :=
  match items with
  | [] => []
  | item :: rest =>
      match rng i with
      | Some _ => unallocated rng (S i) rest
      | None => item :: unallocated rng (S i) rest
      end
  end.

(** The prices of the purchased items, added up. *)
Definition spent_on (purchased : list Purchased.t) : Z :=
  fold_left (fun acc p => acc + Purchased.price p) purchased 0.

(** [_show_purchase_results]: the cart and the selection are cleared. *)
Definition _show_purchase_results (m : SMSMarketplace) : SMSMarketplace :=
  set_cart [] [] m.

Inductive PurchaseOutcome : Type :=
| PurchaseFailed (e : Exn)                       (* "Purchase Failed" dialog *)
| PurchaseComplete (purchased : list Purchased.t). (* results window *)

(** [_process_purchase], run to the end of its worker thread. *)
Definition _process_purchase (rng : Rng) (now : Clock) (m : SMSMarketplace)
  : SMSMarketplace * PurchaseOutcome :=
  try_except
    (let total := total_price (cart m) in
     spent <- Wallet.spend total (Wallet.CartPurchase (length (cart m))) (wallet m) ;;
     let m := set_wallet (snd spent) m in
     let '(purchased, owned) :=
       process_items rng now 0 (cart m) [] (owned_numbers m) in
     let m := set_owned_numbers owned m in
     let m := match purchased with
              | [] => m
              | _ :: _ => _save_owned_numbers m
              end in
     Ok (_show_purchase_results m, PurchaseComplete purchased))
    (fun e => (m, PurchaseFailed e)).

(** [_quick_topup]: [yes] is the answer to its confirmation dialog. *)
Definition _quick_topup (amount : Z) (yes : bool) (m : SMSMarketplace) : SMSMarketplace :=
  if yes then set_wallet (Wallet.deposit amount (Wallet.TopUp amount) (wallet m)) m
  else m.

(** The answers given to the dialogs of [_checkout]. *)
Record CheckoutAnswers : Type := {
  add_funds_now : bool;      (* "Insufficient Funds ... Add funds now?" *)
  topup_confirmed : bool;    (* "Top-up Wallet" of [_quick_topup] *)
  purchase_confirmed : bool  (* "Confirm Purchase" *)
}.

Inductive CheckoutOutcome : Type :=
| CartEmpty
| Short (shortage : Z)
| NotConfirmed
| Processed (o : PurchaseOutcome).

(** [_refresh_marketplace] rewrites [item['price']] on entries of
    [self.providers] in place, and the cart holds those same dictionaries:
    a refresh changes the prices of cart items. [reprice prices items]
    gives the items the prices they have after it, by position; items
    beyond [prices] keep theirs. *)
Definition with_price (p : Z) (item : Listing.t) : Listing.t :=
  {| Listing.id := Listing.id item; Listing.service := Listing.service item;
     Listing.country := Listing.country item;
     Listing.provider := Listing.provider item;
     Listing.price := p;
     Listing.number := Listing.number item;
     Listing.success_rate := Listing.success_rate item;
     Listing.avg_time := Listing.avg_time item;
     Listing.quality_score := Listing.quality_score item |}.

Fixpoint reprice (prices : list Z) (items : list Listing.t) : list Listing.t :=
  match prices, items with
  | p :: ps, item :: rest => with_price p item :: reprice ps rest
  | _, _ => items
  end.

(** [_checkout]. The "Confirm Purchase" dialog runs the Tk event loop, so
    the auto-refresh timer can fire before it is answered: [refreshed] are
    the prices the cart items have when [_process_purchase] is reached,
    [[]] when no refresh came in between. *)
Definition _checkout (ans : CheckoutAnswers) (refreshed : list Z) (rng : Rng)
    (now : Clock) (m : SMSMarketplace) : SMSMarketplace * CheckoutOutcome :=
  match cart m with
  | [] => (m, CartEmpty)
  | _ :: _ =>
      let total := total_price (cart m) in
      let current_balance := Wallet.get_balance (wallet m) in
      if current_balance <? total then
        let shortage := total - current_balance in
        ((if add_funds_now ans
          then _quick_topup (shortage + 500) (topup_confirmed ans) m
          else m),
         Short shortage)
      else if purchase_confirmed ans then
        let m := set_cart (reprice refreshed (cart m)) (selected_numbers m) m in
        let '(m', o) := _process_purchase rng now m in (m', Processed o)
      else (m, NotConfirmed)
  end.

Inductive SingleOutcome : Type :=
| SingleInsufficient            (* "Insufficient Funds" dialog *)
| SingleFailed (e : Exn)        (* "Purchase Failed" dialog *)
| SingleComplete (activation_id : string).

(** [_purchase_single_item]; [n] is the [random.randint] draw. *)
Definition _purchase_single_item (item : Listing.t) (n : Z) (now : string)
    (m : SMSMarketplace) : SMSMarketplace * SingleOutcome :=
  try_except
    (if Wallet.get_balance (wallet m) <? Listing.price item then
       Ok (m, SingleInsufficient)
     else
       spent <- Wallet.spend (Listing.price item)
                  (Wallet.SinglePurchase (Listing.service item)
                     (name (Listing.country item)))
                  (wallet m) ;;
       let m := set_wallet (snd spent) m in
       let m := set_owned_numbers (owned_numbers m ++ [owned_number item n now]) m in
       let m := _save_owned_numbers m in
       Ok (m, SingleComplete (activation n)))
    (fun e => (m, SingleFailed e)).

(** The quick top-up buttons: [for amount in [10, 25, 50, 100]]. *)
Inductive TopupButton : Type := Top10 | Top25 | Top50 | Top100.

Definition topup_amount (b : TopupButton) : Z :=
  match b with
  | Top10 => 1000
  | Top25 => 2500
  | Top50 => 5000
  | Top100 => 10000
  end.

(** The handlers of the marketplace that reach the wallet, and the cart
    edits between them. [EditCart] stands for any of the selection
    handlers ([_on_item_click], [_select_all_visible], [_select_best_deals],
    [_clear_cart]) and for a price refresh, through the cart and selection
    it leaves. *)
Inductive Action : Type :=
| EditCart (c : list Listing.t) (sel : list string)
| ClickTopup (b : TopupButton) (yes : bool)
| Checkout (ans : CheckoutAnswers) (refreshed : list Z) (rng : Rng) (now : Clock)
| QuickPurchase (item : Listing.t) (confirmed : bool) (n : Z) (now : string).

Definition perform (a : Action) (m : SMSMarketplace) : SMSMarketplace :=
  match a with
  | EditCart c sel => set_cart c sel m
  | ClickTopup b yes => _quick_topup (topup_amount b) yes m
  | Checkout ans refreshed rng now => fst (_checkout ans refreshed rng now m)
  | QuickPurchase item confirmed n now =>
      (* _on_item_double_click *)
      if confirmed then fst (_purchase_single_item item n now m) else m
  end.

Definition run (acts : list Action) (m : SMSMarketplace) : SMSMarketplace :=
  fold_left (fun m a => perform a m) acts m.

(** ** Inventory: status changes of owned numbers *)

(** [number['number'] == number_data['number'] and
     number['activation_id'] == number_data['activation_id']] *)
Definition same_number (n key : Owned.t) : bool :=
  String.eqb (Owned.number n) (Owned.number key)
  && String.eqb (Owned.activation_id n) (Owned.activation_id key).

(** The [for i, number in enumerate(self.owned_numbers)] loop of the two
    marking handlers: the first matching entry gets the new status and
    [last_used], then [break]. *)
Fixpoint mark_first (key : Owned.t) (s : Status) (when : string) (l : list Owned.t)
  : list Owned.t :=
  match l with
  | [] => []
  | n :: rest =>
      if same_number n key then Owned.with_status s when n :: rest
      else n :: mark_first key s when rest
  end.

(** [_get_selected_number_data]: [selection] is the (number, activation id)
    pair of the selected row, [None] without a usable selection. *)
Definition _get_selected_number_data (selection : option (string * string))
    (m : SMSMarketplace) : option Owned.t :=
  match selection with
  | None => None
  | Some (number_str, activation_id) =>
      List.find
        (fun n => String.eqb (Owned.number n) number_str
                  && String.eqb (Owned.activation_id n) activation_id)
        (owned_numbers m)
  end.

Inductive StatusDialog : Type :=
| NoNumberSelected              (* showwarning "No Number Selected" *)
| StatusUpdated (number : string). (* showinfo "Status Updated" *)

(** [_mark_number_telegram_ready] *)
Definition _mark_number_telegram_ready (number_data : Owned.t) (now : string)
    (m : SMSMarketplace) : SMSMarketplace :=
  _save_owned_numbers
    (set_owned_numbers (mark_first number_data telegram_ready now (owned_numbers m)) m).

(** [_mark_telegram_ready] *)
Definition _mark_telegram_ready (selection : option (string * string)) (now : string)
    (m : SMSMarketplace) : SMSMarketplace * StatusDialog :=
  match _get_selected_number_data selection m with
  | None => (m, NoNumberSelected)
  | Some number_data =>
      (_mark_number_telegram_ready number_data now m,
       StatusUpdated (Owned.number number_data))
  end.

(** [_mark_selected_used] *)
Definition _mark_selected_used (selection : option (string * string)) (now : string)
    (m : SMSMarketplace) : SMSMarketplace * StatusDialog :=
  match _get_selected_number_data selection m with
  | None => (m, NoNumberSelected)
  | Some number_data =>
      (_save_owned_numbers
         (set_owned_numbers (mark_first number_data used now (owned_numbers m)) m),
       StatusUpdated (Owned.number number_data))
  end.

(** ** Catalog filters *)

(** The Tk variables read by [_get_filtered_data]. *)
Record Filters : Type := {
  service_var : string;
  country_var : string;
  price_min_var : string;
  price_max_var : string;
  provider_var : string
}.

(** [v.split(' ', 1)[1] if ' ' in v else v] *)
Fixpoint after_first_space (v : string) : option string :=
  match v with
  | EmptyString => None
  | String c rest => if Ascii.eqb c " "%char then Some rest else after_first_space rest
  end.

Definition country_name_of (v : string) : string :=
  match after_first_space v with
  | Some rest => rest
  | None => v
  end.

Section Catalog.

(** Python's [float(s)]: the number read, or [ValueError]. *)
Variable float : string -> result Z.

Definition by_service (f : Filters) (l : list Listing.t) : list Listing.t :=
  if negb (String.eqb (service_var f) "all") then
    List.filter (fun p => String.eqb (Listing.service p) (service_var f)) l
  else l.

Definition by_country (f : Filters) (l : list Listing.t) : list Listing.t :=
  if negb (String.eqb (country_var f) "all") then
    let country_name := country_name_of (country_var f) in
    List.filter (fun p => String.eqb (name (Listing.country p)) country_name) l
  else l.

(** The [try: ... except: pass] block. *)
Definition by_price (f : Filters) (l : list Listing.t) : list Listing.t :=
  try_except
    (price_min <- float (price_min_var f) ;;
     price_max <- float (price_max_var f) ;;
     Ok (List.filter
           (fun p => (price_min <=? Listing.price p) && (Listing.price p <=? price_max))
           l))
    (fun _ => l).

Definition by_provider (f : Filters) (l : list Listing.t) : list Listing.t :=
  if negb (String.eqb (provider_var f) "all") then
    List.filter (fun p => String.eqb (Listing.provider p) (provider_var f)) l
  else l.

(** [_get_filtered_data] *)
Definition _get_filtered_data (f : Filters) (m : SMSMarketplace) : list Listing.t :=
  let filtered := providers m in
  let filtered := by_service f filtered in
  let filtered := by_country f filtered in
  let filtered := by_price f filtered in
  let filtered := by_provider f filtered in
  filtered.

End Catalog.

(** A reader of plain decimal literals with at most two decimals
    (["5"], ["0.50"], ["12.5"]), in hundredths; anything else is a
    [ValueError]. It stands for [float] where the model is evaluated on a
    concrete input. *)
Definition digit (c : Ascii.ascii) : option Z :=
  let n := Z.of_nat (Ascii.nat_of_ascii c) - 48 in
  if (0 <=? n) && (n <=? 9) then Some n else None.

Fixpoint digits (s : string) (acc : Z) : option Z :=
  match s with
  | EmptyString => Some acc
  | String c rest =>
      match digit c with
      | Some d => digits rest (10 * acc + d)
      | None => None
      end
  end.

Fixpoint split_point (s : string) : string * option string :=
  match s with
  | EmptyString => (EmptyString, None)
  | String c rest =>
      if Ascii.eqb c "."%char then (EmptyString, Some rest)
      else let '(whole, frac) := split_point rest in (String c whole, frac)
  end.

Definition decimal (s : string) : result Z :=
  let '(whole, frac) := split_point s in
  match whole, digits whole 0 with
  | EmptyString, _ | _, None => Raise ValueError
  | _, Some w =>
      match frac with
      | None => Ok (100 * w)
      | Some fr =>
          match String.length fr, digits fr 0 with
          | 0%nat, Some _ => Ok (100 * w)
          | 1%nat, Some d => Ok (100 * w + 10 * d)
          | 2%nat, Some d => Ok (100 * w + d)
          | _, _ => Raise ValueError
          end
      end
  end.

(** ** Verification codes: journal and monitoring worker *)

(** One [code_data] dictionary. *)
Module Code.
Record t : Type := {
  number : string;
  service : string;
  code : string;
  provider : string;
  activation_id : string;
  received_at : string;
  status : string;
  is_new : option bool
}.
End Code.

(** The program points of [monitoring_worker]. *)
Inductive Pc : Type :=
| Spawned                  (* thread started, poll interval not read yet *)
| LoopTest (poll_interval : Z)   (* at [while self.monitoring_active.get()] *)
| Checking (poll_interval : Z) (todo : list Owned.t) (codes : list Code.t)
                           (* inside [_check_for_sms_codes] *)
| Sleep (poll_interval : Z)      (* at [time.sleep(poll_interval)] *)
| Retry (poll_interval : Z)      (* at [time.sleep(5)] of the handler *)
| Exited                   (* loop left, or no thread yet *)
| Died (e : Exn).          (* an exception ended the thread *)

Inductive Event : Type :=
| CycleStarted
| Fetched (n : Owned.t)
| NewCode (c : Code.t)
| Slept (seconds : Z)
| StopReturned.

(** What the control thread and the scheduler can do next. *)
Inductive Move : Type :=
| WorkerStep (fetched : list Code.t)
    (* the worker runs to its next program point; [fetched] is what
       [_fetch_sms_codes_from_provider] returns if that step is a fetch *)
| WorkerFault
    (* an exception escapes [_check_for_sms_codes] *)
| Stop
    (* the control thread runs [_stop_sms_monitoring] *)
| SetInterval (s : string).
    (* the user edits the poll-interval entry *)

Section Monitoring.

(** The database behind [core.db_fallback.get_db()], which is not part of
    the sources: any state type and any behaviour of the two calls made
    on it. *)
Context {DB : Type}.
Variable execute_insert : Code.t -> DB -> result DB.
Variable log_app_event : Code.t -> DB -> result DB.
Variable float : string -> result Z.

Record Journal : Type := {
  db : DB;
  sms_codes : list Code.t;      (* [self.sms_codes] *)
  popups : list Code.t          (* "New SMS Code!" notifications shown *)
}.

(** [_log_sms_code_to_db]: whatever fails is caught and logged. *)
Definition _log_sms_code_to_db (c : Code.t) (d : DB) : DB :=
  match execute_insert c d with
  | Raise _ => d
  | Ok d1 => try_except (log_app_event c d1) (fun _ => d1)
  end.

(** [_add_sms_code_to_display] *)
Definition _add_sms_code_to_display (c : Code.t) (l : list Code.t) : list Code.t :=
  l ++ [c].

(** The body of [for code_data in codes]. *)
Definition on_code (c : Code.t) (j : Journal) : Journal :=
  {| db := _log_sms_code_to_db c (db j);
     sms_codes := _add_sms_code_to_display c (sms_codes j);
     popups := if default true (Code.is_new c)
               then popups j ++ [c] else popups j |}.

(** [_check_for_sms_codes], one whole cycle; [fetch] is
    [_fetch_sms_codes_from_provider]. *)
Definition _check_for_sms_codes (fetch : Owned.t -> list Code.t)
    (numbers : list Owned.t) (j : Journal) : Journal :=
  fold_left
    (fun j number_info => fold_left (fun j c => on_code c j) (fetch number_info) j)
    numbers j.

Record Monitor : Type := {
  monitoring_active : bool;
  poll_interval_var : string;
  monitoring_numbers : list Owned.t;
  journal : Journal;
  worker : Pc;
  timeline : list Event
}.

Definition at_pc (pc : Pc) (evs : list Event) (m : Monitor) : Monitor :=
  {| monitoring_active := monitoring_active m;
     poll_interval_var := poll_interval_var m;
     monitoring_numbers := monitoring_numbers m;
     journal := journal m;
     worker := pc;
     timeline := timeline m ++ evs |}.

Definition with_journal (j : Journal) (m : Monitor) : Monitor :=
  {| monitoring_active := monitoring_active m;
     poll_interval_var := poll_interval_var m;
     monitoring_numbers := monitoring_numbers m;
     journal := j;
     worker := worker m;
     timeline := timeline m |}.

(** [float(self.poll_interval_var.get() or 5)] *)
Definition read_poll_interval (m : Monitor) : result Z :=
  if String.eqb (poll_interval_var m) "" then Ok 500
  else float (poll_interval_var m).

(** One step of [monitoring_worker]. *)
Definition worker_step (fetched : list Code.t) (m : Monitor) : Monitor :=
  match worker m with
  | Spawned =>
      match read_poll_interval m with
      | Ok p => at_pc (LoopTest p) [] m
      | Raise e => at_pc (Died e) [] m
      end
  | LoopTest p =>
      if monitoring_active m
      then at_pc (Checking p (monitoring_numbers m) []) [CycleStarted] m
      else at_pc Exited [] m
  | Checking p todo (c :: codes) =>
      at_pc (Checking p todo codes) [NewCode c] (with_journal (on_code c (journal m)) m)
  | Checking p (number_info :: todo) [] =>
      at_pc (Checking p todo fetched) [Fetched number_info] m
  | Checking p [] [] => at_pc (Sleep p) [] m
  | Sleep p =>
      (* [time.sleep] raises on a negative length: the handler runs *)
      if p <? 0 then at_pc (Retry p) [] m
      else at_pc (LoopTest p) [Slept p] m
  | Retry p => at_pc (LoopTest p) [Slept 500] m
  | Exited => m
  | Died _ => m
  end.

(** The [except Exception] of the worker loop. *)
Definition worker_fault (m : Monitor) : Monitor :=
  match worker m with
  | Checking p _ _ => at_pc (Retry p) [] m
  | _ => m
  end.

(** [_start_sms_monitoring], called while no worker thread is alive. *)
Definition _start_sms_monitoring (m : Monitor) : Monitor :=
  if monitoring_active m then m
  else match monitoring_numbers m with
       | [] => m
       | _ :: _ =>
           {| monitoring_active := true;
              poll_interval_var := poll_interval_var m;
              monitoring_numbers := monitoring_numbers m;
              journal := journal m;
              worker := Spawned;
              timeline := timeline m |}
       end.

(** [_stop_sms_monitoring] *)
Definition _stop_sms_monitoring (m : Monitor) : Monitor :=
  {| monitoring_active := false;
     poll_interval_var := poll_interval_var m;
     monitoring_numbers := monitoring_numbers m;
     journal := journal m;
     worker := worker m;
     timeline := timeline m ++ [StopReturned] |}.

Definition set_interval (s : string) (m : Monitor) : Monitor :=
  {| monitoring_active := monitoring_active m;
     poll_interval_var := s;
     monitoring_numbers := monitoring_numbers m;
     journal := journal m;
     worker := worker m;
     timeline := timeline m |}.

Definition move (mv : Move) (m : Monitor) : Monitor :=
  match mv with
  | WorkerStep fetched => worker_step fetched m
  | WorkerFault => worker_fault m
  | Stop => _stop_sms_monitoring m
  | SetInterval s => set_interval s m
  end.

Definition play (moves : list Move) (m : Monitor) : Monitor :=
  fold_left (fun m mv => move mv m) moves m.

End Monitoring.

(** Observations on a timeline. *)
Definition is_cycle_start (e : Event) : bool :=
  match e with CycleStarted => true | _ => false end.

Definition is_fetch (e : Event) : bool :=
  match e with Fetched _ => true | _ => false end.

Definition cycles_started (evs : list Event) : nat :=
  length (List.filter is_cycle_start evs).

Definition fetches (evs : list Event) : nat :=
  length (List.filter is_fetch evs).

Definition new_codes (evs : list Event) : list Code.t :=
  flat_map (fun e => match e with NewCode c => [c] | _ => [] end) evs.

Definition sleeps (evs : list Event) : list Z :=
  flat_map (fun e => match e with Slept d => [d] | _ => [] end) evs.





(** ** Session guard: [SessionGuard.enable_logout_protection] *)

Module SessionGuard.

(** The function objects that can sit in [TelegramClient.log_out]. *)
Inductive Method : Type :=
| vendor_log_out (impl : nat)   (* a [log_out] that is not the guard's *)
| guarded_log_out.              (* the closure built by the guard *)

(** The class attributes of [telethon.TelegramClient] the guard touches;
    [None] for an attribute that is not set. *)
Record TelegramClient : Type := {
  log_out : Method;
  _orig_log_out : option Method;
  _logout_guard_enabled : option bool
}.

(** [enable_logout_protection]; [telethon] is [None] when the import
    fails. *)
Definition enable_logout_protection (telethon : option TelegramClient)
  : option TelegramClient * bool :=
  match telethon with
  | None => (None, false)
  | Some cls =>
      if default false (_logout_guard_enabled cls) then (Some cls, true)
      else
        let orig :=
          match _orig_log_out cls with
          | Some m => m
          | None => log_out cls
          end in
        (Some {| log_out := guarded_log_out;
                 _orig_log_out := Some orig;
                 _logout_guard_enabled := Some true |},
         true)
  end.

Inductive Effect : Type :=
| LoggedOut (impl : nat).       (* the vendor method [impl] ran *)

(** [os.environ.get("ALLOW_TELEGRAM_LOGOUT") == "1"] *)
Definition allow (environ : gmap string string) : bool :=
  match environ !! "ALLOW_TELEGRAM_LOGOUT" with
  | Some v => String.eqb v "1"
  | None => false
  end.

(** Calling a method object on a client; [depth] is the room left on the
    interpreter stack. [guarded_log_out] looks [_orig_log_out] up on the
    class when it runs. *)
Fixpoint call (depth : nat) (m : Method) (cls : TelegramClient)
    (environ : gmap string string) : result Effect :=
  match m with
  | vendor_log_out impl => Ok (LoggedOut impl)
  | guarded_log_out =>
      if negb (allow environ) then Raise RuntimeError
      else
        match _orig_log_out cls with
        | None => Raise AttributeError
        | Some orig =>
            match depth with
            | O => Raise RecursionError
            | S d => call d orig cls environ
            end
        end
  end.

Definition recursion_limit : nat := 1000.

(** [client.log_out()] *)
Definition client_log_out (cls : TelegramClient) (environ : gmap string string)
  : result Effect :=
  call recursion_limit (log_out cls) cls environ.

(** The class once the guard is installed over the vendor method
    [impl]. *)
Definition guarded_class (impl : nat) : TelegramClient :=
  {| log_out := guarded_log_out;
     _orig_log_out := Some (vendor_log_out impl);
     _logout_guard_enabled := Some true |}.

(** [n] successive calls of [enable_logout_protection], with the values
    they return. *)
Fixpoint enable_times (n : nat) (telethon : option TelegramClient)
  : option TelegramClient * list bool :=
  match n with
  | O => (telethon, [])
  | S k =>
      let '(t1, r) := enable_logout_protection telethon in
      let '(t2, rs) := enable_times k t1 in
      (t2, r :: rs)
  end.

End SessionGuard.

(** ** The dedupe key of the design document *)


(** ** Criteria of the catalog filter, as the design document words them *)

(** "service (exact match or "all")" *)
Definition service_ok (f : Filters) (p : Listing.t) : bool :=
  String.eqb (service_var f) "all" || String.eqb (Listing.service p) (service_var f).

Definition country_ok (f : Filters) (p : Listing.t) : bool :=
  String.eqb (country_var f) "all"
  || String.eqb (name (Listing.country p)) (country_name_of (country_var f)).

Definition provider_ok (f : Filters) (p : Listing.t) : bool :=
  String.eqb (provider_var f) "all" || String.eqb (Listing.provider p) (provider_var f).

(** ** Concrete inputs *)

Module Sample.

Definition us : Country :=
  {| code := "US"; name := "United States"; flag := "US" |}.

Definition listing (id number : string) (price : Z) : Listing.t :=
  {| Listing.id := id; Listing.service := "Telegram"; Listing.country := us;
     Listing.provider := "5SIM"; Listing.price := price;
     Listing.number := number;
     Listing.success_rate := 95; Listing.avg_time := 30;
     Listing.quality_score := 90 |}.

Definition item1 : Listing.t := listing "sms_10001" "+1 555 100-1000" 200.
Definition item2 : Listing.t := listing "sms_10002" "+1 555 100-2000" 300.

(** A marketplace holding [balance] in its wallet and [items] in its
    cart. *)
Definition shop (balance : Z) (items : list Listing.t) : SMSMarketplace :=
  {| wallet := {| Wallet.balance := balance; Wallet.entries := [] |};
     providers := [item1; item2]; cart := items;
     selected_numbers := map Listing.id items;
     owned_numbers := []; numbers_file := None; disk_writable := true |}.

Definition clock : Clock := fun _ => "2025-01-01 12:00:00".
Definition all_allocated : Rng := fun _ => Some 123456.
Definition none_allocated : Rng := fun _ => None.

Definition decline : CheckoutAnswers :=
  {| add_funds_now := false; topup_confirmed := false; purchase_confirmed := true |}.
Definition accept : CheckoutAnswers :=
  {| add_funds_now := true; topup_confirmed := true; purchase_confirmed := true |}.

Definition n1 (s : Status) : Owned.t :=
  {| Owned.service := "Telegram"; Owned.country := "United States";
     Owned.number := "+1 555 100-1000"; Owned.price := 200;
     Owned.activation_id := "act_123456"; Owned.status := s;
     Owned.purchase_date := "2025-01-01 12:00:00"; Owned.provider := "Demo";
     Owned.success_rate := 95; Owned.last_used := "Never" |}.

Definition n2 : Owned.t :=
  {| Owned.service := "WhatsApp"; Owned.country := "Canada";
     Owned.number := "+1 416 200-2000"; Owned.price := 300;
     Owned.activation_id := "act_654321"; Owned.status := active;
     Owned.purchase_date := "2025-01-01 12:00:00"; Owned.provider := "Demo";
     Owned.success_rate := 90; Owned.last_used := "Never" |}.

Definition inventory (numbers : list Owned.t) : SMSMarketplace :=
  {| wallet := Wallet.init; providers := []; cart := [];
     selected_numbers := []; owned_numbers := numbers;
     numbers_file := Some (Json numbers); disk_writable := true |}.

Definition code_for_n1 : Code.t :=
  {| Code.number := "+1 555 100-1000"; Code.service := "Telegram";
     Code.code := "123456"; Code.provider := "Demo";
     Code.activation_id := "act_123456";
     Code.received_at := "2025-01-01 12:00:05";
     Code.status := "new"; Code.is_new := Some true |}.


(** What the allocator returns for a number: [codes] for N1, nothing for
    any other number. *)
Definition codes_for_n1 (codes : list Code.t) (n : Owned.t) : list Code.t :=
  if String.eqb (Owned.number n) "+1 555 100-1000" then codes else [].



(** A database that is a plain table: every insert adds a row. *)
Definition table_insert (c : Code.t) (rows : list Code.t) : result (list Code.t) :=
  Ok (rows ++ [c]).
Definition table_log (c : Code.t) (rows : list Code.t) : result (list Code.t) :=
  Ok rows.

Definition empty_journal : Journal (DB := list Code.t) :=
  {| db := []; sms_codes := []; popups := [] |}.

(** A monitor about to be started on the watch set {N1, N2}. *)
Definition idle (interval : string) : Monitor (DB := list Code.t) :=
  {| monitoring_active := false; poll_interval_var := interval;
     monitoring_numbers := [n1 active; n2];
     journal := empty_journal; worker := Exited; timeline := [] |}.

Definition filters (lo hi : string) : Filters :=
  {| service_var := "Telegram"; country_var := "all";
     price_min_var := lo; price_max_var := hi; provider_var := "all" |}.

Definition pristine : SessionGuard.TelegramClient :=
  {| SessionGuard.log_out := SessionGuard.vendor_log_out 0;
     SessionGuard._orig_log_out := None;
     SessionGuard._logout_guard_enabled := None |}.

End Sample.

(** * Further handlers *)

(** ** Selection and cart *)

Inductive ClickOutcome : Type :=
| Ignored            (* no row selected *)
| Toggled
| NotInCatalog.      (* [StopIteration] out of [next(...)] *)

(** [self.selected_numbers.remove(item_id)]: the first occurrence goes. *)
Fixpoint remove_first (item_id : string) (l : list string) : list string :=
  match l with
  | [] => []
  | x :: rest => if String.eqb x item_id then rest else x :: remove_first item_id rest
  end.

(** [item_id in self.selected_numbers] *)
Definition is_selected (item_id : string) (m : SMSMarketplace) : bool :=
  existsb (String.eqb item_id) (selected_numbers m).

(** [next(p for p in self.providers if p['id'] == item_id)] *)
Definition find_listing (item_id : string) (m : SMSMarketplace) : option Listing.t :=
  List.find (fun p => String.eqb (Listing.id p) item_id) (providers m).

(** The selecting branch shared by [_on_item_click] and
    [_select_all_visible]: the id is appended to the selection before the
    listing is looked up, so a failed lookup leaves the id selected. *)
Definition select_item (item_id : string) (m : SMSMarketplace)
  : SMSMarketplace * ClickOutcome :=
  let selected := selected_numbers m ++ [item_id] in
  match find_listing item_id m with
  | Some item_data => (set_cart (cart m ++ [item_data]) selected m, Toggled)
  | None => (set_cart (cart m) selected m, NotInCatalog)
  end.

(** [_on_item_click]; [selection] is the id held by the selected row. *)
Definition _on_item_click (selection : option string) (m : SMSMarketplace)
  : SMSMarketplace * ClickOutcome :=
  match selection with
  | None => (m, Ignored)
  | Some item_id =>
      if is_selected item_id m then
        (set_cart
           (List.filter (fun c => negb (String.eqb (Listing.id c) item_id)) (cart m))
           (remove_first item_id (selected_numbers m)) m,
         Toggled)
      else select_item item_id m
  end.








Definition in_catalog (m : SMSMarketplace) (item_id : string) : Prop :=
  In item_id (map Listing.id (providers m)).

(** The selection lists the ids of the cart, in cart order, each once. *)
Definition cart_consistent (m : SMSMarketplace) : Prop :=
  selected_numbers m = map Listing.id (cart m) /\ NoDup (selected_numbers m).

(** ** Deleting an owned number *)

Inductive DeleteDialog : Type :=
| DeleteNoSelection     (* showwarning "No Number Selected" *)
| DeleteDeclined
| NumberDeleted (number : string).

(** [_delete_selected_number]; [yes] answers "Delete Number". *)
Definition _delete_selected_number (selection : option (string * string)) (yes : bool)
    (m : SMSMarketplace) : SMSMarketplace * DeleteDialog :=
  match _get_selected_number_data selection m with
  | None => (m, DeleteNoSelection)
  | Some number_data =>
      if yes then
        (_save_owned_numbers
           (set_owned_numbers
              (List.filter (fun n => negb (same_number n number_data)) (owned_numbers m))
              m),
         NumberDeleted (Owned.number number_data))
      else (m, DeleteDeclined)
  end.

(** ** Sorting and showing the catalog *)

Section StableSort.

Context {A : Type}.
Variable le : A -> A -> bool.

(** [list.sort] is stable, and a stable sort by a total order on keys has
    one result: the one insertion from the right computes. *)
Fixpoint insert_sorted (x : A) (l : list A) : list A :=
  match l with
  | [] => [x]
  | y :: rest => if le x y then x :: y :: rest else y :: insert_sorted x rest
  end.

Definition stable_sort (l : list A) : list A := foldr insert_sorted [] l.

End StableSort.

(** The [if sort_key == ...] chain of [_populate_marketplace]; with
    [reverse=True] equal keys keep their order as well. *)
Definition sort_rows (sort_key : string) (l : list Listing.t) : list Listing.t :=
  if String.eqb sort_key "price" then
    stable_sort (fun a b => Listing.price a <=? Listing.price b) l
  else if String.eqb sort_key "success_rate" then
    stable_sort (fun a b => Listing.success_rate b <=? Listing.success_rate a) l
  else if String.eqb sort_key "speed" then
    stable_sort (fun a b => Listing.avg_time a <=? Listing.avg_time b) l
  else if String.eqb sort_key "country" then
    stable_sort
      (fun a b => String.leb (name (Listing.country a)) (name (Listing.country b))) l
  else if String.eqb sort_key "provider" then
    stable_sort (fun a b => String.leb (Listing.provider a) (Listing.provider b)) l
  else l.

(** [_sort_by_column]: the new value of [self.sort_var]. *)
Definition _sort_by_column (col : string) (sort_var : string) : string :=
  if String.eqb col "Service" then "service"
  else if String.eqb col "Country" then "country"
  else if String.eqb col "Provider" then "provider"
  else if String.eqb col "Price" then "price"
  else if String.eqb col "Success%" then "success_rate"
  else if String.eqb col "Speed" then "speed"
  else if String.eqb col "Quality" then "quality_score"
  else sort_var.

Inductive QualityTag : Type := high | medium | low.

(** ['high' if q >= 90 else 'medium' if q >= 75 else 'low'] *)
Definition quality_tag (q : Z) : QualityTag :=
  if 90 <=? q then high else if 75 <=? q then medium else low.

(** One row of the marketplace tree. *)
Record Row : Type := {
  row_selected : bool;
  row_item : Listing.t;
  row_tag : QualityTag
}.

Definition set_providers (ps : list Listing.t) (m : SMSMarketplace) : SMSMarketplace :=
  {| wallet := wallet m; providers := ps; cart := cart m;
     selected_numbers := selected_numbers m; owned_numbers := owned_numbers m;
     numbers_file := numbers_file m; disk_writable := disk_writable m |}.

Section Populate.

Variable float : string -> result Z.

(** Whether [_get_filtered_data] returns a new list: each filter that
    applies builds one with a comprehension; when none applies the result
    is [self.providers] itself. *)
Definition filter_copies (f : Filters) : bool :=
  negb (String.eqb (service_var f) "all")
  || negb (String.eqb (country_var f) "all")
  || match float (price_min_var f), float (price_max_var f) with
     | Ok _, Ok _ => true
     | _, _ => false
     end
  || negb (String.eqb (provider_var f) "all").

(** [_populate_marketplace]: the rows put in the tree. [filtered_data.sort]
    sorts in place, so when [filtered_data] is [self.providers] the catalog
    is reordered. *)
Definition _populate_marketplace (f : Filters) (sort_key : string) (m : SMSMarketplace)
  : SMSMarketplace * list Row :=
  let filtered_data := sort_rows sort_key (_get_filtered_data float f m) in
  let m' := if filter_copies f then m else set_providers filtered_data m in
  (m',
   map (fun item =>
          {| row_selected := is_selected (Listing.id item) m;
             row_item := item;
             row_tag := quality_tag (Listing.quality_score item) |})
       (take 100 filtered_data)).

End Populate.

(** [price_min <= p['price'] <= price_max] *)
Definition price_ok (price_min price_max : Z) (p : Listing.t) : bool :=
  (price_min <=? Listing.price p) && (Listing.price p <=? price_max).

(** ** Fetching codes without a provider module *)

(** [str.lower] on the letters A-Z and [str.replace('-', '_')]. No
    character outside A-Z lowers to one of d, e, m, o, so this agrees with
    Python on whether the provider id is ['demo']. *)
Definition lower_char (c : Ascii.ascii) : Ascii.ascii :=
  let n := Ascii.nat_of_ascii c in
  if ((65 <=? n) && (n <=? 90))%nat then Ascii.ascii_of_nat (n + 32) else c.

Fixpoint lower (s : string) : string :=
  match s with
  | EmptyString => EmptyString
  | String c rest => String (lower_char c) (lower rest)
  end.

Fixpoint hyphens_to_underscores (s : string) : string :=
  match s with
  | EmptyString => EmptyString
  | String c rest =>
      String (if Ascii.eqb c "-"%char then "_"%char else c)
        (hyphens_to_underscores rest)
  end.

(** [number_info.get('provider', '').lower().replace('-', '_')] *)
Definition provider_id_of (number_info : Owned.t) : string :=
  hyphens_to_underscores (lower (Owned.provider number_info)).

(** [PROVIDERS = {'demo': object}]: whether [PROVIDERS.get(provider_id)]
    finds a class. *)
Definition in_PROVIDERS (provider_id : string) : bool := String.eqb provider_id "demo".

(** The code the handler makes up. *)
Definition demo_code (n : Z) (now : string) (number_info : Owned.t) : Code.t :=
  {| Code.number := Owned.number number_info;
     Code.service := Owned.service number_info;
     Code.code := pretty n;
     Code.provider := Owned.provider number_info;
     Code.activation_id := Owned.activation_id number_info;
     Code.received_at := now;
     Code.status := "new";
     Code.is_new := Some true |}.

(** [_fetch_sms_codes_from_provider] with the table above. The class found
    for ['demo'] is [object], and [object(api_key)] raises [TypeError]; the
    handler then makes up a code when [random.random() < 0.1]: [draw] is
    [Some n] with [n] the [random.randint] draw in that case, [None]
    otherwise. *)
Definition _fetch_sms_codes_from_provider (draw : option Z) (now : string)
    (number_info : Owned.t) : list Code.t :=
  try_except
    (let provider_id := provider_id_of number_info in
     let activation_id := Owned.activation_id number_info in
     if String.eqb activation_id "" then Ok []
     else if negb (in_PROVIDERS provider_id) then Ok []
     else Raise TypeError)
    (fun _ =>
       match draw with
       | Some n => [demo_code n now number_info]
       | None => []
       end).

(** ** Choosing the numbers to watch *)

(** [self.monitoring_numbers.add(number_data)]: the watch set is a [set]
    and [number_data] a [dict], which is not hashable. *)
Definition watch_set_add (number_data : Owned.t) (watch : list Owned.t)
  : result (list Owned.t) :=
  Raise TypeError.

(** [any(n.get('number') == ... and n.get('activation_id') == ... for n in
    self.monitoring_numbers)] *)
Definition already_monitoring (number_data : Owned.t) (watch : list Owned.t) : bool :=
  existsb (fun n => same_number n number_data) watch.

Inductive AddOutcome : Type :=
| Added (added_count : nat)
| UnhashableDict      (* [TypeError] out of [set.add] *)
| BadIndex.           (* [IndexError] out of [active_numbers[idx]] *)

(** The loop of [add_selected]: the watch set it leaves, with the count of
    numbers added or the exception that ended it. *)
Fixpoint add_selected (selections : list nat) (active_numbers : list Owned.t)
    (watch : list Owned.t) (added_count : nat) : list Owned.t * AddOutcome :=
  match selections with
  | [] => (watch, Added added_count)
  | idx :: rest =>
      match active_numbers !! idx with
      | None => (watch, BadIndex)
      | Some number_data =>
          if already_monitoring number_data watch then
            add_selected rest active_numbers watch added_count
          else
            match watch_set_add number_data watch with
            | Ok watch' => add_selected rest active_numbers watch' (S added_count)
            | Raise _ => (watch, UnhashableDict)
            end
      end
  end.

(** [_add_number_monitoring]: the numbers offered are those that are
    active or Telegram-ready. *)
Definition offered_for_monitoring (m : SMSMarketplace) : list Owned.t :=
  List.filter
    (fun n => match Owned.status n with
              | active | telegram_ready => true
              | _ => false
              end)
    (owned_numbers m).

(** The schedule of one cycle that nothing interrupts: the loop test, then
    for each number its fetch and one step per code fetched, then the step
    to the sleep. *)
Fixpoint poll_moves (fetch : Owned.t -> list Code.t) (numbers : list Owned.t)
  : list Move :=
  match numbers with
  | [] => []
  | n :: rest =>
      WorkerStep (fetch n) :: map (fun _ => WorkerStep []) (fetch n)
      ++ poll_moves fetch rest
  end.

Definition cycle_moves (fetch : Owned.t -> list Code.t) (numbers : list Owned.t)
  : list Move :=
  WorkerStep [] :: poll_moves fetch numbers ++ [WorkerStep []].

(** What the user does on the monitoring tab. *)
Inductive WatchEvent : Type :=
| AddSelected (selections : list nat)
| PressStart
| PressStop.

Section Watching.

Context {DB : Type}.

Definition with_numbers (numbers : list Owned.t) (mon : Monitor (DB := DB))
  : Monitor (DB := DB) :=
  {| monitoring_active := monitoring_active mon;
     poll_interval_var := poll_interval_var mon;
     monitoring_numbers := numbers;
     journal := journal mon;
     worker := worker mon;
     timeline := timeline mon |}.

Definition watch_step (m : SMSMarketplace) (ev : WatchEvent) (mon : Monitor (DB := DB))
  : Monitor (DB := DB) :=
  match ev with
  | AddSelected selections =>
      with_numbers
        (fst (add_selected selections (offered_for_monitoring m)
                (monitoring_numbers mon) 0))
        mon
  | PressStart => _start_sms_monitoring mon
  | PressStop => _stop_sms_monitoring mon
  end.

Definition watch_run (m : SMSMarketplace) (evs : list WatchEvent)
    (mon : Monitor (DB := DB)) : Monitor (DB := DB) :=
  fold_left (fun mon ev => watch_step m ev mon) evs mon.

End Watching.

(** ** The inventory and its file *)

(** [_refresh_my_numbers]: the list is read back from the file. *)
Definition _refresh_my_numbers (m : SMSMarketplace) : result SMSMarketplace :=
  owned <- _load_owned_numbers (numbers_file m) ;;
  Ok (set_owned_numbers owned m).

(** What changes the inventory. *)
Inductive InventoryEvent : Type :=
| Buy (a : Action)
| MarkUsed (selection : option (string * string)) (now : string)
| MarkTelegramReady (selection : option (string * string)) (now : string)
| DeleteNumber (selection : option (string * string)) (yes : bool).

Definition inventory_step (ev : InventoryEvent) (m : SMSMarketplace) : SMSMarketplace :=
  match ev with
  | Buy a => perform a m
  | MarkUsed selection now => fst (_mark_selected_used selection now m)
  | MarkTelegramReady selection now => fst (_mark_telegram_ready selection now m)
  | DeleteNumber selection yes => fst (_delete_selected_number selection yes m)
  end.

Definition inventory_run (evs : list InventoryEvent) (m : SMSMarketplace)
  : SMSMarketplace :=
  fold_left (fun m ev => inventory_step ev m) evs m.

(** The file reads back as the list in memory. *)
Definition in_sync (m : SMSMarketplace) : Prop :=
  _load_owned_numbers (numbers_file m) = Ok (owned_numbers m).

(** ** Statistics of the inventory *)

(** [n['status'] == s] *)
Definition status_eqb (a b : Status) : bool :=
  match a, b with
  | active, active | telegram_ready, telegram_ready
  | used, used | expired, expired => true
  | _, _ => false
  end.

(** [len([n for n in self.owned_numbers if n['status'] == s])] *)
Definition count_status (s : Status) (l : list Owned.t) : nat :=
  length (List.filter (fun n => status_eqb (Owned.status n) s) l).

(** The three labels [_update_numbers_stats] sets. *)
Record NumbersStats : Type := {
  total_numbers : nat;
  active_numbers : nat;
  telegram_ready_numbers : nat
}.

Definition _update_numbers_stats (m : SMSMarketplace) : NumbersStats :=
  {| total_numbers := length (owned_numbers m);
     active_numbers := count_status active (owned_numbers m);
     telegram_ready_numbers := count_status telegram_ready (owned_numbers m) |}.

(** ** The inventory view *)

(** The string a status is stored as. *)
Definition status_name (s : Status) : string :=
  match s with
  | active => "active"
  | telegram_ready => "telegram_ready"
  | used => "used"
  | expired => "expired"
  end.

(** The Tk variables of the inventory tab. *)
Record NumberFilters : Type := {
  status_filter_var : string;
  my_service_filter_var : string;
  numbers_sort_var : string
}.

(** [_get_filtered_owned_numbers] *)
Definition _get_filtered_owned_numbers (v : NumberFilters) (m : SMSMarketplace)
  : list Owned.t :=
  let filtered := owned_numbers m in
  let filtered :=
    if negb (String.eqb (status_filter_var v) "all") then
      List.filter
        (fun n => String.eqb (status_name (Owned.status n)) (status_filter_var v))
        filtered
    else filtered in
  let filtered :=
    if negb (String.eqb (my_service_filter_var v) "all") then
      List.filter (fun n => String.eqb (Owned.service n) (my_service_filter_var v))
        filtered
    else filtered in
  filtered.

(** [_sort_owned_numbers]: [sorted] is stable, with [reverse=True] as
    well. *)
Definition _sort_owned_numbers (v : NumberFilters) (numbers : list Owned.t)
  : list Owned.t :=
  let sort_key := numbers_sort_var v in
  if String.eqb sort_key "purchase_date" then
    stable_sort
      (fun a b => String.leb (Owned.purchase_date b) (Owned.purchase_date a)) numbers
  else if String.eqb sort_key "service" then
    stable_sort (fun a b => String.leb (Owned.service a) (Owned.service b)) numbers
  else if String.eqb sort_key "country" then
    stable_sort (fun a b => String.leb (Owned.country a) (Owned.country b)) numbers
  else if String.eqb sort_key "status" then
    stable_sort
      (fun a b => String.leb (status_name (Owned.status a))
                    (status_name (Owned.status b))) numbers
  else if String.eqb sort_key "price" then
    stable_sort (fun a b => Owned.price b <=? Owned.price a) numbers
  else numbers.

(** The numbers [_populate_numbers_list] puts in the tree, in order. *)
Definition _populate_numbers_list (v : NumberFilters) (m : SMSMarketplace)
  : list Owned.t :=
  _sort_owned_numbers v (_get_filtered_owned_numbers v m).

(** ** Session guard: calls and cleared flags *)

(** What can happen to the class between calls: the guard is enabled
    again, or other code sets the enabled flag to [False] or deletes it. *)
Inductive GuardEvent : Type :=
| Enable
| ClearFlag (deleted : bool).

Definition guard_step (ev : GuardEvent) (cls : SessionGuard.TelegramClient)
  : SessionGuard.TelegramClient :=
  match ev with
  | Enable =>
      match fst (SessionGuard.enable_logout_protection (Some cls)) with
      | Some cls' => cls'
      | None => cls
      end
  | ClearFlag deleted =>
      {| SessionGuard.log_out := SessionGuard.log_out cls;
         SessionGuard._orig_log_out := SessionGuard._orig_log_out cls;
         SessionGuard._logout_guard_enabled :=
           if deleted then None else Some false |}
  end.

Definition guard_run (evs : list GuardEvent) (cls : SessionGuard.TelegramClient)
  : SessionGuard.TelegramClient :=
  fold_left (fun cls ev => guard_step ev cls) evs cls.

(** More concrete inputs. *)
Module Sample2.

Definition provider_of (p : string) (n : Owned.t) : Owned.t :=
  {| Owned.service := Owned.service n; Owned.country := Owned.country n;
     Owned.number := Owned.number n; Owned.price := Owned.price n;
     Owned.activation_id := Owned.activation_id n; Owned.status := Owned.status n;
     Owned.purchase_date := Owned.purchase_date n; Owned.provider := p;
     Owned.success_rate := Owned.success_rate n; Owned.last_used := Owned.last_used n |}.

Definition item3 : Listing.t := Sample.listing "sms_10003" "+1 555 100-3000" 150.

Definition catalog : SMSMarketplace :=
  {| wallet := Wallet.init; providers := [Sample.item2; Sample.item1; item3];
     cart := []; selected_numbers := [];
     owned_numbers := []; numbers_file := None; disk_writable := true |}.

Definition no_filter : Filters :=
  {| service_var := "all"; country_var := "all";
     price_min_var := "abc"; price_max_var := "5.00"; provider_var := "all" |}.

End Sample2.

(** * Properties *)

(** ** Durable store *)

Lemma load_owned_numbers_total (file : NumbersFile) :
  exists l, _load_owned_numbers file = Ok l.
Proof.
  destruct file as [[l|]|]; cbn; eauto.
Qed.

(** C9: loading the owned numbers when the backing file does not exist
    returns the empty list, as a normal return and not as an exception;
    the marketplace then starts with no owned numbers. Whatever the file
    holds, the load returns a list and raises nothing. *)
Theorem load_owned_numbers_missing_file :
  _load_owned_numbers None = Ok []
  /\ (forall file, exists l, _load_owned_numbers file = Ok l)
  /\ (forall catalog writable,
        exists m, init catalog None writable = Ok m /\ owned_numbers m = []).
Proof.
  split; [reflexivity|]. split.
  - exact load_owned_numbers_total.
  - intros catalog writable. unfold init.
    change (_load_owned_numbers None) with (Ok (@nil Owned.t)). cbn [bind].
    eexists. split; reflexivity.
Qed.

Lemma load_owned_numbers_garbage :
  _load_owned_numbers (Some Garbage) = Ok [].
Proof. reflexivity. Qed.

Lemma load_after_save (m : SMSMarketplace) :
  disk_writable m = true ->
  _load_owned_numbers (numbers_file (_save_owned_numbers m)) = Ok (owned_numbers m).
Proof.
  intros Hw. unfold _save_owned_numbers. rewrite Hw. reflexivity.
Qed.

(** ** Catalog filters *)

Section CatalogFacts.

Variable float : string -> result Z.

Lemma by_service_In f l p :
  In p (by_service f l) <-> In p l /\ service_ok f p = true.
Proof.
  unfold by_service, service_ok.
  destruct (String.eqb (service_var f) "all"); cbn.
  - tauto.
  - apply filter_In.
Qed.

Lemma by_country_In f l p :
  In p (by_country f l) <-> In p l /\ country_ok f p = true.
Proof.
  unfold by_country, country_ok.
  destruct (String.eqb (country_var f) "all"); cbn.
  - tauto.
  - apply filter_In.
Qed.

Lemma by_provider_In f l p :
  In p (by_provider f l) <-> In p l /\ provider_ok f p = true.
Proof.
  unfold by_provider, provider_ok.
  destruct (String.eqb (provider_var f) "all"); cbn.
  - tauto.
  - apply filter_In.
Qed.

Lemma by_price_malformed f l :
  (exists e, float (price_min_var f) = Raise e)
  \/ (exists e, float (price_max_var f) = Raise e) ->
  by_price float f l = l.
Proof.
  unfold by_price.
  intros [[e He] | [e He]].
  - rewrite He. reflexivity.
  - rewrite He. destruct (float (price_min_var f)); reflexivity.
Qed.

Lemma by_price_well_formed f l lo hi p :
  float (price_min_var f) = Ok lo ->
  float (price_max_var f) = Ok hi ->
  In p (by_price float f l) <-> In p l /\ lo <= Listing.price p <= hi.
Proof.
  intros Hlo Hhi. unfold by_price. rewrite Hlo, Hhi. cbn.
  rewrite filter_In, andb_true_iff, !Z.leb_le. tauto.
Qed.

End CatalogFacts.

(** C8: when a price bound does not read as a number, [_get_filtered_data]
    returns normally, applies no price criterion, and still applies the
    service, country and provider criteria. *)
Theorem malformed_price_range_is_no_filter
    (float : string -> result Z) (f : Filters) (m : SMSMarketplace) :
  (exists e, float (price_min_var f) = Raise e)
  \/ (exists e, float (price_max_var f) = Raise e) ->
  _get_filtered_data float f m
    = by_provider f (by_country f (by_service f (providers m)))
  /\ forall p,
       In p (_get_filtered_data float f m)
       <-> In p (providers m)
           /\ service_ok f p = true
           /\ country_ok f p = true
           /\ provider_ok f p = true.
Proof.
  intros Hbad.
  assert (E : _get_filtered_data float f m
              = by_provider f (by_country f (by_service f (providers m)))).
  { unfold _get_filtered_data. now rewrite by_price_malformed. }
  split; [exact E|].
  intros p. rewrite E, by_provider_In, by_country_In, by_service_In. tauto.
Qed.

Lemma malformed_price_range_is_no_filter_witness :
  ((exists e, decimal (price_min_var (Sample.filters "abc" "5.00")) = Raise e)
   \/ (exists e, decimal (price_max_var (Sample.filters "abc" "5.00")) = Raise e))
  /\ _get_filtered_data decimal (Sample.filters "abc" "5.00") (Sample.shop 5000 [])
     = [Sample.item1; Sample.item2].
Proof.
  assert (H : (exists e, decimal (price_min_var (Sample.filters "abc" "5.00")) = Raise e)
              \/ (exists e, decimal (price_max_var (Sample.filters "abc" "5.00")) = Raise e)).
  { left. exists ValueError. reflexivity. }
  split; [exact H|].
  rewrite (proj1 (malformed_price_range_is_no_filter decimal
                    (Sample.filters "abc" "5.00") (Sample.shop 5000 []) H)).
  reflexivity.
Defined.

(** ** Session guard *)

Section GuardFacts.
Import SessionGuard.

Lemma enable_first (cls : TelegramClient) (impl : nat) :
  log_out cls = vendor_log_out impl ->
  _orig_log_out cls = None ->
  default false (_logout_guard_enabled cls) = false ->
  enable_logout_protection (Some cls) = (Some (SessionGuard.guarded_class impl), true).
Proof.
  intros Hl Ho Hf. unfold enable_logout_protection.
  rewrite Hf, Ho, Hl. reflexivity.
Qed.

Lemma enable_again (impl : nat) (n : nat) :
  enable_times n (Some (SessionGuard.guarded_class impl))
  = (Some (SessionGuard.guarded_class impl), replicate n true).
Proof.
  induction n as [|n IH]; [reflexivity|].
  cbn [enable_times].
  change (enable_logout_protection (Some (SessionGuard.guarded_class impl)))
    with (Some (SessionGuard.guarded_class impl), true).
  cbv beta iota. rewrite IH. reflexivity.
Qed.

(** The saved original survives a cleared flag: [hasattr] keeps the
    wrapper out of the [_orig_log_out] slot. *)
Lemma enable_keeps_saved_original (cls : TelegramClient) (m : Method) :
  _orig_log_out cls = Some m ->
  exists cls',
    fst (enable_logout_protection (Some cls)) = Some cls'
    /\ _orig_log_out cls' = Some m.
Proof.
  intros Ho. unfold enable_logout_protection.
  destruct (default false (_logout_guard_enabled cls)); cbn.
  - eauto.
  - rewrite Ho. eauto.
Qed.

Lemma guarded_call (impl : nat) (environ : gmap string string) :
  client_log_out (SessionGuard.guarded_class impl) environ
  = if allow environ then Ok (LoggedOut impl) else Raise RuntimeError.
Proof.
  unfold client_log_out, recursion_limit. cbn.
  destruct (allow environ); reflexivity.
Qed.

End GuardFacts.

(** C10: on a class whose [log_out] is the vendor's and on which the guard
    has not been installed, any number of calls of
    [enable_logout_protection] all return [True] and leave the class as the
    first call left it; [_orig_log_out] holds the vendor's method, not the
    wrapper; a guarded [log_out] raises unless ALLOW_TELEGRAM_LOGOUT is
    ["1"], and then runs the vendor's method. *)
Theorem enable_logout_protection_idempotent
    (cls : SessionGuard.TelegramClient) (impl n : nat)
    (environ : gmap string string) :
  SessionGuard.log_out cls = SessionGuard.vendor_log_out impl ->
  SessionGuard._orig_log_out cls = None ->
  default false (SessionGuard._logout_guard_enabled cls) = false ->
  SessionGuard.enable_times (S n) (Some cls)
    = (Some (SessionGuard.guarded_class impl), replicate (S n) true)
  /\ SessionGuard.enable_logout_protection (Some (SessionGuard.guarded_class impl))
     = (Some (SessionGuard.guarded_class impl), true)
  /\ SessionGuard._orig_log_out (SessionGuard.guarded_class impl)
     = Some (SessionGuard.vendor_log_out impl)
  /\ SessionGuard.client_log_out (SessionGuard.guarded_class impl) environ
     = if SessionGuard.allow environ
       then Ok (SessionGuard.LoggedOut impl)
       else Raise RuntimeError.
Proof.
  intros Hl Ho Hf. repeat split.
  - cbn [SessionGuard.enable_times].
    rewrite (enable_first cls impl Hl Ho Hf), enable_again. reflexivity.
  - apply guarded_call.
Qed.

Lemma enable_logout_protection_idempotent_witness :
  SessionGuard.log_out Sample.pristine = SessionGuard.vendor_log_out 0
  /\ SessionGuard._orig_log_out Sample.pristine = None
  /\ default false (SessionGuard._logout_guard_enabled Sample.pristine) = false
  /\ SessionGuard.enable_times 3 (Some Sample.pristine)
     = (Some (SessionGuard.guarded_class 0), [true; true; true])
  /\ SessionGuard.client_log_out (SessionGuard.guarded_class 0) ∅
     = Raise RuntimeError
  /\ SessionGuard.client_log_out (SessionGuard.guarded_class 0)
       {[ "ALLOW_TELEGRAM_LOGOUT" := "1" ]}
     = Ok (SessionGuard.LoggedOut 0).
Proof.
  pose proof (enable_logout_protection_idempotent Sample.pristine 0 2 ∅
                eq_refl eq_refl eq_refl) as (H1 & _ & _ & H2).
  pose proof (enable_logout_protection_idempotent Sample.pristine 0 2
                {[ "ALLOW_TELEGRAM_LOGOUT" := "1" ]}
                eq_refl eq_refl eq_refl) as (_ & _ & _ & H3).
  split; [reflexivity|]. split; [reflexivity|]. split; [reflexivity|].
  split; [exact H1|]. split; [exact H2 | exact H3].
Defined.

(** ** Purchase orchestration *)

Lemma fold_price_acc (items : list Listing.t) (a : Z) :
  fold_left (fun acc item => acc + Listing.price item) items a
  = a + total_price items.
Proof.
  unfold total_price. revert a.
  induction items as [|item items IH]; intros a; cbn.
  - lia.
  - rewrite IH, (IH (0 + Listing.price item)). lia.
Qed.

Lemma total_price_cons (item : Listing.t) (items : list Listing.t) :
  total_price (item :: items) = Listing.price item + total_price items.
Proof.
  unfold total_price at 1. cbn. rewrite fold_price_acc. lia.
Qed.

Lemma fold_spent_acc (purchased : list Purchased.t) (a : Z) :
  fold_left (fun acc p => acc + Purchased.price p) purchased a
  = a + spent_on purchased.
Proof.
  unfold spent_on. revert a.
  induction purchased as [|p purchased IH]; intros a; cbn.
  - lia.
  - rewrite IH, (IH (0 + Purchased.price p)). lia.
Qed.

Lemma spent_on_cons (p : Purchased.t) (purchased : list Purchased.t) :
  spent_on (p :: purchased) = Purchased.price p + spent_on purchased.
Proof.
  unfold spent_on at 1. cbn. rewrite fold_spent_acc. lia.
Qed.

Lemma process_items_spec (rng : Rng) (now : Clock) (items : list Listing.t) :
  forall i purchased owned,
    process_items rng now i items purchased owned
    = (purchased ++ bought rng i items, owned ++ acquired rng now i items).
Proof.
  induction items as [|item items IH]; intros i purchased owned; cbn.
  - now rewrite !app_nil_r.
  - destruct (rng i) as [n|]; rewrite IH.
    + now rewrite <- !app_assoc.
    + reflexivity.
Qed.

Lemma allocation_partition (rng : Rng) (items : list Listing.t) :
  forall i,
    (length (bought rng i items) + length (unallocated rng i items)
     = length items)%nat
    /\ spent_on (bought rng i items) + total_price (unallocated rng i items)
       = total_price items
    /\ map Purchased.price (bought rng i items)
       = map Listing.price (allocated rng i items).
Proof.
  induction items as [|item items IH]; intros i.
  - repeat split.
  - destruct (IH (S i)) as (Hlen & Hsum & Hmap).
    cbn [bought unallocated allocated]. destruct (rng i) as [n|].
    + rewrite spent_on_cons, total_price_cons. cbn [length map purchased_item
        Purchased.price]. repeat split; [lia | lia | now f_equal].
    + rewrite !total_price_cons. cbn [length]. repeat split; [lia | lia | assumption].
Qed.

Lemma wallet_save (m : SMSMarketplace) : wallet (_save_owned_numbers m) = wallet m.
Proof. unfold _save_owned_numbers. now destruct (disk_writable m). Qed.

Lemma owned_save (m : SMSMarketplace) :
  owned_numbers (_save_owned_numbers m) = owned_numbers m.
Proof. unfold _save_owned_numbers. now destruct (disk_writable m). Qed.

Lemma cart_save (m : SMSMarketplace) : cart (_save_owned_numbers m) = cart m.
Proof. unfold _save_owned_numbers. now destruct (disk_writable m). Qed.

Lemma spend_accepted (amount : Z) (r : Wallet.Reason) (w : Wallet.WalletManager) :
  amount <= Wallet.balance w ->
  Wallet.spend amount r w = Ok (length (Wallet.entries w), Wallet.debited amount r w).
Proof.
  intros H. unfold Wallet.spend.
  destruct (Z.ltb_spec (Wallet.balance w) amount); [lia | reflexivity].
Qed.

Lemma spend_rejected (amount : Z) (r : Wallet.Reason) (w : Wallet.WalletManager) :
  Wallet.balance w < amount ->
  Wallet.spend amount r w = Raise InsufficientFunds.
Proof.
  intros H. unfold Wallet.spend.
  destruct (Z.ltb_spec (Wallet.balance w) amount); [reflexivity | lia].
Qed.

Lemma process_purchase_accepted (rng : Rng) (now : Clock) (m : SMSMarketplace) :
  total_price (cart m) <= Wallet.balance (wallet m) ->
  snd (_process_purchase rng now m) = PurchaseComplete (bought rng 0 (cart m))
  /\ wallet (fst (_process_purchase rng now m))
     = Wallet.debited (total_price (cart m))
         (Wallet.CartPurchase (length (cart m))) (wallet m)
  /\ owned_numbers (fst (_process_purchase rng now m))
     = owned_numbers m ++ acquired rng now 0 (cart m)
  /\ cart (fst (_process_purchase rng now m)) = [].
Proof.
  intros H. unfold _process_purchase.
  rewrite (spend_accepted _ _ _ H). cbn [bind snd].
  cbn [cart owned_numbers set_wallet]. rewrite process_items_spec. cbn [app].
  cbn [try_except fst snd].
  destruct (bought rng 0 (cart m)) as [|p ps];
    unfold _show_purchase_results; cbn [set_cart wallet owned_numbers cart];
    rewrite ?wallet_save, ?owned_save; repeat split.
Qed.

Lemma process_purchase_rejected (rng : Rng) (now : Clock) (m : SMSMarketplace) :
  Wallet.balance (wallet m) < total_price (cart m) ->
  _process_purchase rng now m = (m, PurchaseFailed InsufficientFunds).
Proof.
  intros H. unfold _process_purchase. now rewrite (spend_rejected _ _ _ H).
Qed.

(** C1, as the code has it: a cart run whose debit is accepted debits the
    wallet once, by the total of the whole cart, whatever the allocation
    draws; the report lists the allocated items only, in cart order; an
    item whose allocation fails is neither reported nor refunded, so the
    ledger delta is minus the prices of the purchased items minus the
    prices of the failed ones. *)
Theorem process_purchase_debits_whole_cart
    (rng : Rng) (now : Clock) (m : SMSMarketplace) :
  total_price (cart m) <= Wallet.balance (wallet m) ->
  exists m' purchased,
    _process_purchase rng now m = (m', PurchaseComplete purchased)
    /\ purchased = bought rng 0 (cart m)
    /\ map Purchased.price purchased = map Listing.price (allocated rng 0 (cart m))
    /\ (length purchased + length (unallocated rng 0 (cart m)) = length (cart m))%nat
    /\ Wallet.balance (wallet m') - Wallet.balance (wallet m) = - total_price (cart m)
    /\ Wallet.balance (wallet m') - Wallet.balance (wallet m)
       = - spent_on purchased - total_price (unallocated rng 0 (cart m))
    /\ Wallet.entries (wallet m')
       = Wallet.entries (wallet m)
         ++ [{| Wallet.delta := - total_price (cart m);
                Wallet.reason := Wallet.CartPurchase (length (cart m));
                Wallet.resultingBalance :=
                  Wallet.balance (wallet m) - total_price (cart m) |}]
    /\ owned_numbers m' = owned_numbers m ++ acquired rng now 0 (cart m).
Proof.
  intros H.
  destruct (process_purchase_accepted rng now m H) as (Hout & Hw & Ho & _).
  destruct (allocation_partition rng (cart m) 0%nat) as (Hlen & Hsum & Hmap).
  exists (fst (_process_purchase rng now m)), (bought rng 0 (cart m)).
  rewrite Hw, Ho. cbn [Wallet.debited Wallet.balance Wallet.entries].
  repeat split; try assumption; try lia.
  rewrite <- Hout. now destruct (_process_purchase rng now m).
Qed.

Lemma process_purchase_debits_whole_cart_witness :
  total_price (cart (Sample.shop 5000 [Sample.item1; Sample.item2])) <= 5000
  /\ exists m' purchased,
       _process_purchase Sample.none_allocated Sample.clock
         (Sample.shop 5000 [Sample.item1; Sample.item2])
       = (m', PurchaseComplete purchased)
       /\ purchased = []
       /\ Wallet.balance (wallet m') = 4500.
Proof.
  assert (H : total_price (cart (Sample.shop 5000 [Sample.item1; Sample.item2]))
              <= Wallet.balance (wallet (Sample.shop 5000 [Sample.item1; Sample.item2]))).
  { vm_compute. discriminate. }
  split; [exact H|].
  destruct (process_purchase_debits_whole_cart Sample.none_allocated Sample.clock
              (Sample.shop 5000 [Sample.item1; Sample.item2]) H)
    as (m' & purchased & Hrun & Hp & _ & _ & Hbal & _).
  exists m', purchased. repeat split; [exact Hrun | exact Hp |].
  cbn [Sample.shop cart wallet Wallet.balance] in Hbal.
  change (total_price [Sample.item1; Sample.item2]) with 500 in Hbal. lia.
Defined.

(** C1 fails on the code: with a cart of one $2.00 item whose allocation
    fails, the report is empty, the wallet is $2.00 lower, and the ledger
    holds the debit and no refund. *)
Lemma failed_item_is_not_refunded :
  let m := Sample.shop 5000 [Sample.item1] in
  let r := _process_purchase Sample.none_allocated Sample.clock m in
  snd r = PurchaseComplete []
  /\ length (cart m) = 1%nat
  /\ Wallet.balance (wallet (fst r)) - Wallet.balance (wallet m) = -200
  /\ Wallet.balance (wallet (fst r)) - Wallet.balance (wallet m) <> - spent_on []
  /\ map Wallet.delta (Wallet.entries (wallet (fst r))) = [-200].
Proof.
  vm_compute. repeat split; discriminate.
Qed.

Lemma quick_topup_wallet (amount : Z) (yes : bool) (m : SMSMarketplace) :
  wallet (_quick_topup amount yes m)
  = if yes then Wallet.deposit amount (Wallet.TopUp amount) (wallet m) else wallet m.
Proof. unfold _quick_topup. now destruct yes. Qed.

Lemma quick_topup_inventory (amount : Z) (yes : bool) (m : SMSMarketplace) :
  owned_numbers (_quick_topup amount yes m) = owned_numbers m
  /\ cart (_quick_topup amount yes m) = cart m.
Proof. unfold _quick_topup. now destruct yes. Qed.

(** The ways through [_checkout]. *)
Lemma checkout_cases
    (ans : CheckoutAnswers) (refreshed : list Z) (rng : Rng) (now : Clock)
    (m : SMSMarketplace) :
  let total := total_price (cart m) in
  let r := _checkout ans refreshed rng now m in
  let mc := set_cart (reprice refreshed (cart m)) (selected_numbers m) m in
  match cart m with
  | [] => r = (m, CartEmpty)
  | _ :: _ =>
      if Wallet.balance (wallet m) <? total then
        snd r = Short (total - Wallet.balance (wallet m))
        /\ owned_numbers (fst r) = owned_numbers m
        /\ cart (fst r) = cart m
        /\ wallet (fst r)
           = (if add_funds_now ans && topup_confirmed ans
              then Wallet.deposit (total - Wallet.balance (wallet m) + 500)
                     (Wallet.TopUp (total - Wallet.balance (wallet m) + 500))
                     (wallet m)
              else wallet m)
      else if purchase_confirmed ans then
        if Wallet.balance (wallet m) <? total_price (cart mc) then
          r = (mc, Processed (PurchaseFailed InsufficientFunds))
        else
          snd r = Processed (PurchaseComplete (bought rng 0 (cart mc)))
          /\ wallet (fst r)
             = Wallet.debited (total_price (cart mc))
                 (Wallet.CartPurchase (length (cart mc))) (wallet m)
          /\ owned_numbers (fst r) = owned_numbers m ++ acquired rng now 0 (cart mc)
          /\ cart (fst r) = []
      else r = (m, NotConfirmed)
  end.
Proof.
  cbv zeta. unfold _checkout, Wallet.get_balance.
  destruct (cart m) as [|item rest] eqn:Hcart; [reflexivity|].
  rewrite <- Hcart.
  destruct (Z.ltb_spec (Wallet.balance (wallet m)) (total_price (cart m))) as [Hlt|Hge].
  - cbn [fst snd]. repeat split.
    + destruct (add_funds_now ans); [apply quick_topup_inventory | reflexivity].
    + destruct (add_funds_now ans); [apply quick_topup_inventory | reflexivity].
    + destruct (add_funds_now ans); cbn [andb]; [apply quick_topup_wallet | reflexivity].
  - destruct (purchase_confirmed ans); [|reflexivity].
    set (mc := set_cart (reprice refreshed (cart m)) (selected_numbers m) m).
    change (wallet m) with (wallet mc). change (owned_numbers m) with (owned_numbers mc).
    destruct (Z.ltb_spec (Wallet.balance (wallet mc)) (total_price (cart mc)))
      as [Hlt'|Hge'].
    + now rewrite (process_purchase_rejected rng now mc Hlt').
    + destruct (process_purchase_accepted rng now mc Hge') as (Hout & Hw & Ho & Hc).
      destruct (_process_purchase rng now mc) as [m' o]. cbn [fst snd] in *.
      now subst o.
Qed.

Lemma reprice_nothing (m : SMSMarketplace) :
  set_cart (reprice [] (cart m)) (selected_numbers m) m = m.
Proof. now destruct m. Qed.




(** *** The wallet never goes below zero *)

Lemma solvent_deposit (amount : Z) (r : Wallet.Reason) (w : Wallet.WalletManager) :
  0 <= amount -> Wallet.solvent w -> Wallet.solvent (Wallet.deposit amount r w).
Proof.
  intros Ha [Hb Hl]. split; cbn; [lia|].
  apply Forall_app. split; [assumption|].
  constructor; [cbn; lia | constructor].
Qed.

Lemma solvent_debited (amount : Z) (r : Wallet.Reason) (w : Wallet.WalletManager) :
  amount <= Wallet.balance w -> Wallet.solvent w ->
  Wallet.solvent (Wallet.debited amount r w).
Proof.
  intros Ha [Hb Hl]. split; cbn; [lia|].
  apply Forall_app. split; [assumption|].
  constructor; [cbn; lia | constructor].
Qed.

(** Whatever is asked of it, [spend] leaves a solvent wallet solvent: an
    amount above the balance is refused. *)
Lemma spend_solvent (amount : Z) (r : Wallet.Reason) (w : Wallet.WalletManager) :
  Wallet.solvent w ->
  match Wallet.spend amount r w with
  | Ok (_, w') => Wallet.solvent w' /\ Wallet.balance w' = Wallet.balance w - amount
  | Raise e => e = InsufficientFunds /\ Wallet.balance w < amount
  end.
Proof.
  intros Hs. unfold Wallet.spend.
  destruct (Z.ltb_spec (Wallet.balance w) amount) as [Hlt|Hge].
  - now split.
  - split; [now apply solvent_debited | reflexivity].
Qed.

Lemma topup_amount_pos (b : TopupButton) : 0 < topup_amount b.
Proof. destruct b; reflexivity. Qed.

Lemma checkout_solvent (ans : CheckoutAnswers) (refreshed : list Z) (rng : Rng)
    (now : Clock) (m : SMSMarketplace) :
  Wallet.solvent (wallet m) ->
  Wallet.solvent (wallet (fst (_checkout ans refreshed rng now m))).
Proof.
  intros Hs.
  pose proof (checkout_cases ans refreshed rng now m) as H.
  cbv zeta in H.
  destruct (cart m) as [|item rest] eqn:Hcart.
  - now rewrite H.
  - rewrite <- Hcart in H.
    destruct (Z.ltb_spec (Wallet.balance (wallet m)) (total_price (cart m)))
      as [Hlt|Hge].
    + destruct H as (_ & _ & _ & Hw). rewrite Hw.
      destruct (add_funds_now ans && topup_confirmed ans); [|assumption].
      apply solvent_deposit; [|assumption]. destruct Hs. lia.
    + destruct (purchase_confirmed ans).
      * destruct (Z.ltb_spec (Wallet.balance (wallet m))
                    (total_price
                       (cart (set_cart (reprice refreshed (cart m))
                                (selected_numbers m) m)))) as [Hlt'|Hge'].
        -- now rewrite H.
        -- destruct H as (_ & Hw & _). rewrite Hw. now apply solvent_debited.
      * now rewrite H.
Qed.

Lemma purchase_single_item_cases (item : Listing.t) (n : Z) (now : string)
    (m : SMSMarketplace) :
  if Wallet.balance (wallet m) <? Listing.price item then
    _purchase_single_item item n now m = (m, SingleInsufficient)
  else
    snd (_purchase_single_item item n now m) = SingleComplete (activation n)
    /\ wallet (fst (_purchase_single_item item n now m))
       = Wallet.debited (Listing.price item)
           (Wallet.SinglePurchase (Listing.service item)
              (name (Listing.country item)))
           (wallet m)
    /\ owned_numbers (fst (_purchase_single_item item n now m))
       = owned_numbers m ++ [owned_number item n now].
Proof.
  unfold _purchase_single_item, Wallet.get_balance.
  destruct (Z.ltb_spec (Wallet.balance (wallet m)) (Listing.price item)) as [Hlt|Hge].
  - reflexivity.
  - rewrite (spend_accepted _ _ _ Hge). cbn [bind try_except fst snd].
    rewrite wallet_save, owned_save. repeat split.
Qed.

Lemma purchase_single_item_solvent (item : Listing.t) (n : Z) (now : string)
    (m : SMSMarketplace) :
  Wallet.solvent (wallet m) ->
  Wallet.solvent (wallet (fst (_purchase_single_item item n now m))).
Proof.
  intros Hs. pose proof (purchase_single_item_cases item n now m) as H.
  destruct (Z.ltb_spec (Wallet.balance (wallet m)) (Listing.price item)) as [Hlt|Hge].
  - now rewrite H.
  - destruct H as (_ & Hw & _). rewrite Hw. now apply solvent_debited.
Qed.

Lemma perform_solvent (a : Action) (m : SMSMarketplace) :
  Wallet.solvent (wallet m) -> Wallet.solvent (wallet (perform a m)).
Proof.
  intros Hs.
  destruct a as [c sel | b yes | ans refreshed rng now | item confirmed n now];
    cbn [perform].
  - exact Hs.
  - rewrite quick_topup_wallet. destruct yes; [|assumption].
    apply solvent_deposit; [|assumption]. pose proof (topup_amount_pos b). lia.
  - now apply checkout_solvent.
  - destruct confirmed; [|assumption]. now apply purchase_single_item_solvent.
Qed.

Lemma run_solvent (acts : list Action) :
  forall m, Wallet.solvent (wallet m) -> Wallet.solvent (wallet (run acts m)).
Proof.
  induction acts as [|a acts IH]; intros m Hs; cbn.
  - exact Hs.
  - apply IH. now apply perform_solvent.
Qed.

(** With no refresh between the balance test and the debit, the ledger
    never has to refuse the debit of a checkout. *)
Lemma checkout_debit_accepted (ans : CheckoutAnswers) (rng : Rng) (now : Clock)
    (m : SMSMarketplace) (e : Exn) :
  snd (_checkout ans [] rng now m) <> Processed (PurchaseFailed e).
Proof.
  pose proof (checkout_cases ans [] rng now m) as H.
  cbv zeta in H. rewrite reprice_nothing in H.
  destruct (cart m) as [|item rest].
  - now rewrite H.
  - destruct (Wallet.balance (wallet m) <? _).
    + destruct H as (Ho & _). now rewrite Ho.
    + destruct (purchase_confirmed ans).
      * destruct H as (Ho & _). now rewrite Ho.
      * now rewrite H.
Qed.

(** A refresh in between can raise the total above the balance; the
    ledger then refuses the debit and nothing is bought. *)
Lemma checkout_debit_refused (ans : CheckoutAnswers) (refreshed : list Z)
    (rng : Rng) (now : Clock) (m : SMSMarketplace) (e : Exn) :
  snd (_checkout ans refreshed rng now m) = Processed (PurchaseFailed e) ->
  e = InsufficientFunds
  /\ wallet (fst (_checkout ans refreshed rng now m)) = wallet m
  /\ owned_numbers (fst (_checkout ans refreshed rng now m)) = owned_numbers m.
Proof.
  pose proof (checkout_cases ans refreshed rng now m) as H.
  cbv zeta in H.
  destruct (cart m) as [|item rest].
  - now rewrite H.
  - destruct (Wallet.balance (wallet m) <? _).
    + destruct H as (Ho & _). now rewrite Ho.
    + destruct (purchase_confirmed ans).
      * destruct (Wallet.balance (wallet m) <? _).
        -- rewrite H. cbn. now intros [= <-].
        -- destruct H as (Ho & _). now rewrite Ho.
      * now rewrite H.
Qed.

Lemma checkout_refused_after_refresh :
  _checkout Sample.accept [250; 300] Sample.all_allocated Sample.clock
    (Sample.shop 500 [Sample.item1; Sample.item2])
  = (set_cart (reprice [250; 300] [Sample.item1; Sample.item2])
       (map Listing.id [Sample.item1; Sample.item2])
       (Sample.shop 500 [Sample.item1; Sample.item2]),
     Processed (PurchaseFailed InsufficientFunds)).
Proof. reflexivity. Qed.

Lemma single_debit_accepted (item : Listing.t) (n : Z) (now : string)
    (m : SMSMarketplace) (e : Exn) :
  snd (_purchase_single_item item n now m) <> SingleFailed e.
Proof.
  pose proof (purchase_single_item_cases item n now m) as H.
  destruct (Wallet.balance (wallet m) <? Listing.price item).
  - now rewrite H.
  - destruct H as (Ho & _). now rewrite Ho.
Qed.

(** C4: from a wallet whose balance and recorded balances are at least
    zero, every sequence of cart edits, top-ups, checkouts and quick
    purchases leaves a wallet whose balance and recorded balances are at
    least zero. A quick purchase the balance does not cover changes
    nothing. A debit is issued only after a comparison with the balance,
    and one that has become an overdraft in the meantime (prices refreshed
    while the confirmation dialog was open) is refused by the ledger: the
    wallet and the inventory stay as they were. *)
Theorem balance_never_negative (acts : list Action) (m : SMSMarketplace) :
  Wallet.solvent (wallet m) ->
  Wallet.solvent (wallet (run acts m))
  /\ (forall item n now,
        Wallet.balance (wallet (run acts m)) < Listing.price item ->
        _purchase_single_item item n now (run acts m)
        = (run acts m, SingleInsufficient))
  /\ (forall item n now e,
        snd (_purchase_single_item item n now (run acts m)) <> SingleFailed e)
  /\ (forall ans rng now e,
        snd (_checkout ans [] rng now (run acts m)) <> Processed (PurchaseFailed e))
  /\ (forall ans refreshed rng now e,
        snd (_checkout ans refreshed rng now (run acts m))
          = Processed (PurchaseFailed e) ->
        wallet (fst (_checkout ans refreshed rng now (run acts m)))
          = wallet (run acts m)).
Proof.
  intros Hs. split; [now apply run_solvent|].
  split.
  { intros item n now Hlt.
    pose proof (purchase_single_item_cases item n now (run acts m)) as H.
    destruct (Z.ltb_spec (Wallet.balance (wallet (run acts m))) (Listing.price item));
      [exact H | lia]. }
  split; [intros; apply single_debit_accepted|].
  split; [intros; apply checkout_debit_accepted|].
  intros ans refreshed rng now e Hfail.
  now destruct (checkout_debit_refused ans refreshed rng now (run acts m) e Hfail)
    as (_ & Hw & _).
Qed.

Lemma balance_never_negative_witness :
  Wallet.solvent (wallet (Sample.shop 400 [Sample.item1; Sample.item2]))
  /\ Wallet.solvent
       (wallet
          (run [Checkout Sample.decline [] Sample.all_allocated Sample.clock;
                QuickPurchase Sample.item2 true 222222 "2025-01-01 12:00:00";
                QuickPurchase Sample.item2 true 333333 "2025-01-01 12:00:01";
                Checkout Sample.accept [] Sample.all_allocated Sample.clock;
                Checkout Sample.accept [600; 600] Sample.all_allocated Sample.clock;
                Checkout Sample.accept [] Sample.all_allocated Sample.clock]
             (Sample.shop 400 [Sample.item1; Sample.item2]))).
Proof.
  assert (H : Wallet.solvent (wallet (Sample.shop 400 [Sample.item1; Sample.item2]))).
  { split; [cbn; lia | constructor]. }
  split; [exact H|].
  exact (proj1 (balance_never_negative _ _ H)).
Defined.

(** ** Inventory *)

Lemma find_first {A : Type} (f : A -> bool) (l : list A) (x : A) :
  List.find f l = Some x ->
  exists pre post,
    l = pre ++ x :: post /\ f x = true /\ Forall (fun y => f y = false) pre.
Proof.
  induction l as [|a l IH]; cbn; [discriminate|].
  destruct (f a) eqn:Hfa.
  - intros [= ->]. exists [], l. repeat split; [assumption | constructor].
  - intros Hfind. destruct (IH Hfind) as (pre & post & -> & Hx & Hpre).
    exists (a :: pre), post. repeat split; [assumption | now constructor].
Qed.

Lemma mark_first_at (key : Owned.t) (s : Status) (when : string)
    (pre post : list Owned.t) (n : Owned.t) :
  Forall (fun y => same_number y key = false) pre ->
  same_number n key = true ->
  mark_first key s when (pre ++ n :: post)
  = pre ++ Owned.with_status s when n :: post.
Proof.
  intros Hpre Hn. induction Hpre as [|y pre Hy _ IH]; cbn.
  - now rewrite Hn.
  - now rewrite Hy, IH.
Qed.

Lemma mark_first_no_match (key : Owned.t) (s : Status) (when : string)
    (l : list Owned.t) :
  Forall (fun y => same_number y key = false) l ->
  mark_first key s when l = l.
Proof.
  intros H. induction H as [|y l Hy _ IH]; cbn; [reflexivity|].
  now rewrite Hy, IH.
Qed.

Lemma mark_first_length (key : Owned.t) (s : Status) (when : string)
    (l : list Owned.t) :
  length (mark_first key s when l) = length l.
Proof.
  induction l as [|n l IH]; cbn; [reflexivity|].
  destruct (same_number n key); cbn; [reflexivity | now rewrite IH].
Qed.

(** The selected number is the first entry with its number and activation
    id. *)
Lemma selected_number_is_first (selection : option (string * string))
    (m : SMSMarketplace) (nd : Owned.t) :
  _get_selected_number_data selection m = Some nd ->
  exists pre post,
    owned_numbers m = pre ++ nd :: post
    /\ Forall (fun n => same_number n nd = false) pre
    /\ same_number nd nd = true.
Proof.
  unfold _get_selected_number_data.
  destruct selection as [[number_str activation_id]|]; [|discriminate].
  intros Hfind. apply find_first in Hfind as (pre & post & Hl & Hnd & Hpre).
  apply andb_true_iff in Hnd as [Hn Ha].
  apply String.eqb_eq in Hn, Ha. subst number_str activation_id.
  exists pre, post. unfold same_number. repeat split.
  - exact Hl.
  - exact Hpre.
  - now rewrite !String.eqb_refl.
Qed.

(** C5, as the code has it: the two marking handlers never look at the
    current status. With a number selected, whatever its status (['expired']
    included), [_mark_selected_used] sets it to ['used'] and
    [_mark_telegram_ready] to ['telegram_ready']: the first entry with the
    selected number and activation id gets the new status and [last_used],
    every other entry is untouched, the store is written, and the dialog
    reports "Status Updated". No handler returns an illegal-transition
    error. *)
Theorem status_change_ignores_current_status
    (selection : option (string * string)) (now : string)
    (m : SMSMarketplace) (nd : Owned.t) :
  _get_selected_number_data selection m = Some nd ->
  exists pre post,
    owned_numbers m = pre ++ nd :: post
    /\ Forall (fun n => same_number n nd = false) pre
    /\ _mark_selected_used selection now m
       = (_save_owned_numbers
            (set_owned_numbers (pre ++ Owned.with_status used now nd :: post) m),
          StatusUpdated (Owned.number nd))
    /\ _mark_telegram_ready selection now m
       = (_save_owned_numbers
            (set_owned_numbers
               (pre ++ Owned.with_status telegram_ready now nd :: post) m),
          StatusUpdated (Owned.number nd)).
Proof.
  intros Hsel.
  destruct (selected_number_is_first selection m nd Hsel)
    as (pre & post & Hl & Hpre & Hnd).
  exists pre, post. repeat split; try assumption.
  - unfold _mark_selected_used. rewrite Hsel, Hl.
    now rewrite (mark_first_at nd used now pre post nd Hpre Hnd).
  - unfold _mark_telegram_ready, _mark_number_telegram_ready. rewrite Hsel, Hl.
    now rewrite (mark_first_at nd telegram_ready now pre post nd Hpre Hnd).
Qed.

Lemma status_change_ignores_current_status_witness :
  _get_selected_number_data (Some ("+1 555 100-1000", "act_123456"))
    (Sample.inventory [Sample.n2; Sample.n1 expired])
  = Some (Sample.n1 expired)
  /\ exists pre post,
       owned_numbers (Sample.inventory [Sample.n2; Sample.n1 expired])
       = pre ++ Sample.n1 expired :: post
       /\ map Owned.status
            (owned_numbers
               (fst (_mark_selected_used (Some ("+1 555 100-1000", "act_123456"))
                       "2025-01-02 09:00:00"
                       (Sample.inventory [Sample.n2; Sample.n1 expired]))))
          = map Owned.status pre ++ used :: map Owned.status post.
Proof.
  assert (H : _get_selected_number_data (Some ("+1 555 100-1000", "act_123456"))
                (Sample.inventory [Sample.n2; Sample.n1 expired])
              = Some (Sample.n1 expired)) by reflexivity.
  split; [exact H|].
  destruct (status_change_ignores_current_status _ "2025-01-02 09:00:00" _ _ H)
    as (pre & post & Hl & _ & Hused & _).
  exists pre, post. split; [exact Hl|].
  rewrite Hused. cbn [fst]. rewrite owned_save. cbn [owned_numbers set_owned_numbers].
  now rewrite map_app.
Defined.

(** C5 fails on the code: marking an ['expired'] number as used succeeds
    and changes both the in-memory list and the stored file. *)
Lemma expired_number_is_marked_used :
  let m := Sample.inventory [Sample.n1 expired; Sample.n2] in
  let r := _mark_selected_used (Some ("+1 555 100-1000", "act_123456"))
             "2025-01-02 09:00:00" m in
  map Owned.status (owned_numbers m) = [expired; active]
  /\ snd r = StatusUpdated "+1 555 100-1000"
  /\ map Owned.status (owned_numbers (fst r)) = [used; active]
  /\ owned_numbers (fst r) <> owned_numbers m
  /\ numbers_file (fst r) <> numbers_file m.
Proof.
  vm_compute. repeat split; discriminate.
Qed.

(** ** Code journal *)

Section JournalFacts.

Context {DB : Type}.
Variable execute_insert : Code.t -> DB -> result DB.
Variable log_app_event : Code.t -> DB -> result DB.



End JournalFacts.

Lemma table_keeps_every_row (codes : list Code.t) :
  forall rows,
    fold_left
      (fun d c => _log_sms_code_to_db Sample.table_insert Sample.table_log c d)
      codes rows
    = rows ++ codes.
Proof.
  induction codes as [|c codes IH]; intros rows; cbn [fold_left].
  - now rewrite app_nil_r.
  - rewrite IH. cbn. now rewrite <- app_assoc.
Qed.



(** ** Monitoring worker *)

Lemma cycles_started_app (a b : list Event) :
  cycles_started (a ++ b) = (cycles_started a + cycles_started b)%nat.
Proof. unfold cycles_started. now rewrite List.filter_app, length_app. Qed.

Lemma fetches_app (a b : list Event) :
  fetches (a ++ b) = (fetches a + fetches b)%nat.
Proof. unfold fetches. now rewrite List.filter_app, length_app. Qed.

Lemma new_codes_app (a b : list Event) :
  new_codes (a ++ b) = new_codes a ++ new_codes b.
Proof. unfold new_codes. apply flat_map_app. Qed.

Lemma sleeps_app (a b : list Event) : sleeps (a ++ b) = sleeps a ++ sleeps b.
Proof. unfold sleeps. apply flat_map_app. Qed.

Section MonitorFacts.

Context {DB : Type}.
Variable execute_insert : Code.t -> DB -> result DB.
Variable log_app_event : Code.t -> DB -> result DB.
Variable float : string -> result Z.

Local Abbreviation step := (move execute_insert log_app_event float).
Local Abbreviation steps := (play execute_insert log_app_event float).

(** Every move appends to the timeline. *)
Lemma move_timeline (mv : Move) (m : Monitor) :
  exists evs, timeline (step mv m) = timeline m ++ evs.
Proof.
  destruct mv as [fetched| | |s]; cbn.
  - unfold worker_step.
    destruct (worker m) as [|p|p [|n todo] [|c codes]|p|p| |e];
      try destruct (read_poll_interval float m);
      try destruct (monitoring_active m);
      try destruct (p <? 0);
      cbn; try (eexists; reflexivity);
      exists []; now rewrite app_nil_r.
  - unfold worker_fault. destruct (worker m); cbn;
      try (eexists; reflexivity); exists []; now rewrite app_nil_r.
  - eexists; reflexivity.
  - exists []. now rewrite app_nil_r.
Qed.






End MonitorFacts.

Lemma worker_reads_interval_at_start
    {DB : Type} (execute_insert log_app_event : Code.t -> DB -> result DB)
    (float : string -> result Z) (fetched : list Code.t) (m : Monitor) (p : Z) :
  worker m = Spawned ->
  read_poll_interval float m = Ok p ->
  worker (worker_step execute_insert log_app_event float fetched m) = LoopTest p.
Proof.
  intros Hw Hr. unfold worker_step. now rewrite Hw, Hr.
Qed.







(** * Properties of the further handlers *)

(** ** Selection and cart *)
























(** X3: a click on a row whose id the catalog does not hold stops at the
    lookup with the id already selected: the selection then names an id
    for which the cart has no entry. *)
Theorem click_outside_catalog_selects_without_cart_entry
    (item_id : string) (m : SMSMarketplace) :
  cart_consistent m ->
  ~ in_catalog m item_id ->
  is_selected item_id m = false ->
  _on_item_click (Some item_id) m
    = (set_cart (cart m) (selected_numbers m ++ [item_id]) m, NotInCatalog)
  /\ ~ cart_consistent (fst (_on_item_click (Some item_id) m)).
Proof.
  intros [Hsel Hnd] Hout Hnot.
  assert (Hf : find_listing item_id m = None).
  { unfold find_listing. destruct (List.find _ _) as [p|] eqn:Hfind; [|reflexivity].
    apply find_some in Hfind as [Hp Hid]. apply String.eqb_eq in Hid.
    exfalso. apply Hout. unfold in_catalog. rewrite <- Hid. now apply in_map. }
  assert (H1 : _on_item_click (Some item_id) m
               = (set_cart (cart m) (selected_numbers m ++ [item_id]) m,
                  NotInCatalog)).
  { cbn [_on_item_click]. rewrite Hnot. unfold select_item. now rewrite Hf. }
  split; [exact H1|].
  rewrite H1. cbn [fst]. intros [Hbad _]. cbn in Hbad.
  rewrite <- Hsel in Hbad. apply (f_equal length) in Hbad.
  rewrite length_app in Hbad. cbn in Hbad. lia.
Qed.

Lemma click_outside_catalog_selects_without_cart_entry_witness :
  cart_consistent Sample2.catalog
  /\ ~ in_catalog Sample2.catalog "sms_99999"
  /\ is_selected "sms_99999" Sample2.catalog = false
  /\ selected_numbers (fst (_on_item_click (Some "sms_99999") Sample2.catalog))
     = ["sms_99999"]
  /\ cart (fst (_on_item_click (Some "sms_99999") Sample2.catalog)) = [].
Proof.
  assert (Hc : cart_consistent Sample2.catalog).
  { split; [reflexivity | constructor]. }
  assert (Hout : ~ in_catalog Sample2.catalog "sms_99999").
  { unfold in_catalog. cbn. intros [H|[H|[H|[]]]]; discriminate H. }
  split; [exact Hc|]. split; [exact Hout|]. split; [reflexivity|].
  rewrite (proj1 (click_outside_catalog_selects_without_cart_entry
                    "sms_99999" Sample2.catalog Hc Hout eq_refl)).
  split; reflexivity.
Defined.

(** ** Deleting and marking owned numbers *)

Lemma find_none_filter {A : Type} (f : A -> bool) (l : list A) :
  List.find f (List.filter (fun x => negb (f x)) l) = None.
Proof.
  induction l as [|a l IH]; cbn; [reflexivity|].
  destruct (f a) eqn:Hfa; cbn; [assumption|]. now rewrite Hfa.
Qed.

Lemma selection_matches (selection : option (string * string))
    (m : SMSMarketplace) (nd : Owned.t) :
  _get_selected_number_data selection m = Some nd ->
  selection = Some (Owned.number nd, Owned.activation_id nd).
Proof.
  unfold _get_selected_number_data.
  destruct selection as [[number_str activation_id]|]; [|discriminate].
  intros Hfind. apply find_some in Hfind as [_ Hnd].
  apply andb_true_iff in Hnd as [Hn Ha].
  apply String.eqb_eq in Hn, Ha. now subst.
Qed.

(** X4: a confirmed delete takes out every entry with the selected number
    and activation id, not only the first, and keeps the others in order;
    the same selection then finds nothing, so marking it used reports "No
    Number Selected". A declined delete changes nothing. *)
Theorem delete_removes_every_match
    (selection : option (string * string)) (now : string)
    (m : SMSMarketplace) (nd : Owned.t) :
  _get_selected_number_data selection m = Some nd ->
  owned_numbers (fst (_delete_selected_number selection true m))
    = List.filter (fun n => negb (same_number n nd)) (owned_numbers m)
  /\ (length (owned_numbers (fst (_delete_selected_number selection true m)))
      < length (owned_numbers m))%nat
  /\ _get_selected_number_data selection
       (fst (_delete_selected_number selection true m)) = None
  /\ snd (_mark_selected_used selection now
            (fst (_delete_selected_number selection true m)))
     = NoNumberSelected
  /\ _delete_selected_number selection false m = (m, DeleteDeclined).
Proof.
  intros Hsel.
  pose proof (selection_matches selection m nd Hsel) as ->.
  assert (Hdel : owned_numbers
                   (fst (_delete_selected_number
                           (Some (Owned.number nd, Owned.activation_id nd)) true m))
                 = List.filter (fun n => negb (same_number n nd)) (owned_numbers m)).
  { unfold _delete_selected_number. rewrite Hsel. cbn [fst].
    now rewrite owned_save. }
  assert (Hnone : _get_selected_number_data
                    (Some (Owned.number nd, Owned.activation_id nd))
                    (fst (_delete_selected_number
                            (Some (Owned.number nd, Owned.activation_id nd)) true m))
                  = None).
  { unfold _get_selected_number_data at 1. rewrite Hdel.
    apply (find_none_filter (fun n => same_number n nd)). }
  split; [exact Hdel|]. split; [|split; [exact Hnone|split]].
  - rewrite Hdel.
    destruct (selected_number_is_first _ m nd Hsel) as (pre & post & Hl & _ & Hnd).
    rewrite Hl, List.filter_app, !length_app. cbn. rewrite Hnd. cbn.
    pose proof (List.filter_length_le (fun n => negb (same_number n nd)) pre).
    pose proof (List.filter_length_le (fun n => negb (same_number n nd)) post).
    lia.
  - unfold _mark_selected_used. now rewrite Hnone.
  - unfold _delete_selected_number. now rewrite Hsel.
Qed.

Lemma delete_removes_every_match_witness :
  _get_selected_number_data (Some ("+1 555 100-1000", "act_123456"))
    (Sample.inventory [Sample.n1 active; Sample.n2; Sample.n1 used])
  = Some (Sample.n1 active)
  /\ owned_numbers
       (fst (_delete_selected_number (Some ("+1 555 100-1000", "act_123456")) true
               (Sample.inventory [Sample.n1 active; Sample.n2; Sample.n1 used])))
     = [Sample.n2].
Proof.
  assert (H : _get_selected_number_data (Some ("+1 555 100-1000", "act_123456"))
                (Sample.inventory [Sample.n1 active; Sample.n2; Sample.n1 used])
              = Some (Sample.n1 active)) by reflexivity.
  split; [exact H|].
  rewrite (proj1 (delete_removes_every_match _ "2025-01-02 09:00:00" _ _ H)).
  reflexivity.
Defined.

Lemma find_skips {A : Type} (f : A -> bool) (pre post : list A) (x : A) :
  Forall (fun y => f y = false) pre -> f x = true ->
  List.find f (pre ++ x :: post) = Some x.
Proof.
  intros Hpre Hx. induction Hpre as [|y pre Hy _ IH]; cbn.
  - now rewrite Hx.
  - now rewrite Hy.
Qed.

(** X5: after a number has been marked, the same selection finds the
    entry that was marked, with the new status and time of use and every
    other field as before; the list keeps its length. *)
Theorem marked_number_is_found_again
    (selection : option (string * string)) (now : string)
    (m : SMSMarketplace) (nd : Owned.t) :
  _get_selected_number_data selection m = Some nd ->
  _get_selected_number_data selection (fst (_mark_selected_used selection now m))
    = Some (Owned.with_status used now nd)
  /\ _get_selected_number_data selection (fst (_mark_telegram_ready selection now m))
     = Some (Owned.with_status telegram_ready now nd)
  /\ length (owned_numbers (fst (_mark_selected_used selection now m)))
     = length (owned_numbers m)
  /\ (disk_writable m = true ->
      _load_owned_numbers (numbers_file (fst (_mark_selected_used selection now m)))
      = Ok (owned_numbers (fst (_mark_selected_used selection now m)))).
Proof.
  intros Hsel.
  pose proof (selection_matches selection m nd Hsel) as Hs.
  destruct (selected_number_is_first selection m nd Hsel)
    as (pre & post & Hl & Hpre & Hnd).
  assert (Hfind : forall s,
             List.find
               (fun n => String.eqb (Owned.number n) (Owned.number nd)
                         && String.eqb (Owned.activation_id n) (Owned.activation_id nd))
               (pre ++ Owned.with_status s now nd :: post)
             = Some (Owned.with_status s now nd)).
  { intros s. apply find_skips; [exact Hpre|]. cbn. now rewrite !String.eqb_refl. }
  repeat split.
  - unfold _mark_selected_used. rewrite Hsel. cbn [fst]. subst selection.
    unfold _get_selected_number_data. rewrite owned_save.
    cbn [owned_numbers set_owned_numbers]. rewrite Hl.
    rewrite (mark_first_at nd used now pre post nd Hpre Hnd). apply Hfind.
  - unfold _mark_telegram_ready, _mark_number_telegram_ready. rewrite Hsel.
    cbn [fst]. subst selection.
    unfold _get_selected_number_data. rewrite owned_save.
    cbn [owned_numbers set_owned_numbers]. rewrite Hl.
    rewrite (mark_first_at nd telegram_ready now pre post nd Hpre Hnd). apply Hfind.
  - unfold _mark_selected_used. rewrite Hsel. cbn [fst]. rewrite owned_save.
    cbn [owned_numbers set_owned_numbers]. apply mark_first_length.
  - intros Hw. unfold _mark_selected_used. rewrite Hsel. cbn [fst].
    rewrite owned_save. apply load_after_save. exact Hw.
Qed.

Lemma marked_number_is_found_again_witness :
  _get_selected_number_data (Some ("+1 555 100-1000", "act_123456"))
    (Sample.inventory [Sample.n2; Sample.n1 active])
  = Some (Sample.n1 active)
  /\ option_map Owned.status
       (_get_selected_number_data (Some ("+1 555 100-1000", "act_123456"))
          (fst (_mark_selected_used (Some ("+1 555 100-1000", "act_123456"))
                  "2025-01-02 09:00:00"
                  (Sample.inventory [Sample.n2; Sample.n1 active]))))
     = Some used.
Proof.
  assert (H : _get_selected_number_data (Some ("+1 555 100-1000", "act_123456"))
                (Sample.inventory [Sample.n2; Sample.n1 active])
              = Some (Sample.n1 active)) by reflexivity.
  split; [exact H|].
  rewrite (proj1 (marked_number_is_found_again _ "2025-01-02 09:00:00" _ _ H)).
  reflexivity.
Defined.

(** ** Catalog filters, continued *)

Lemma filter_all {A : Type} (l : list A) : List.filter (fun _ => true) l = l.
Proof. induction l as [|a l IH]; cbn; [reflexivity | now rewrite IH]. Qed.

Lemma filter_twice {A : Type} (f g : A -> bool) (l : list A) :
  List.filter g (List.filter f l) = List.filter (fun x => f x && g x) l.
Proof.
  induction l as [|a l IH]; cbn; [reflexivity|].
  destruct (f a); cbn; [destruct (g a)|]; now rewrite IH.
Qed.

Lemma by_service_filter (f : Filters) (l : list Listing.t) :
  by_service f l = List.filter (service_ok f) l.
Proof.
  unfold by_service, service_ok.
  destruct (String.eqb (service_var f) "all"); cbn; [now rewrite filter_all | reflexivity].
Qed.

Lemma by_country_filter (f : Filters) (l : list Listing.t) :
  by_country f l = List.filter (country_ok f) l.
Proof.
  unfold by_country, country_ok.
  destruct (String.eqb (country_var f) "all"); cbn; [now rewrite filter_all | reflexivity].
Qed.

Lemma by_provider_filter (f : Filters) (l : list Listing.t) :
  by_provider f l = List.filter (provider_ok f) l.
Proof.
  unfold by_provider, provider_ok.
  destruct (String.eqb (provider_var f) "all"); cbn; [now rewrite filter_all | reflexivity].
Qed.

(** X6: with a price range that reads as two numbers, the four filters
    applied one after the other are one filter by the conjunction of the
    four criteria: the result is the catalog entries that meet all of
    them, in catalog order. A range whose minimum exceeds its maximum gives
    no rows, and filtering a filtered catalog again changes nothing. *)
Theorem filtered_data_is_one_filter
    (float : string -> result Z) (f : Filters) (m : SMSMarketplace) (lo hi : Z) :
  float (price_min_var f) = Ok lo ->
  float (price_max_var f) = Ok hi ->
  _get_filtered_data float f m
    = List.filter
        (fun p => service_ok f p && country_ok f p && price_ok lo hi p
                  && provider_ok f p)
        (providers m)
  /\ (hi < lo -> _get_filtered_data float f m = [])
  /\ _get_filtered_data float f (set_providers (_get_filtered_data float f m) m)
     = _get_filtered_data float f m.
Proof.
  intros Hlo Hhi.
  assert (E : forall m',
             _get_filtered_data float f m'
             = List.filter
                 (fun p => service_ok f p && country_ok f p && price_ok lo hi p
                           && provider_ok f p)
                 (providers m')).
  { intros m'. unfold _get_filtered_data, by_price. rewrite Hlo, Hhi.
    cbn [bind try_except].
    rewrite by_provider_filter, by_country_filter, by_service_filter.
    rewrite !filter_twice. apply List.filter_ext. intros p.
    unfold price_ok. now rewrite !andb_assoc. }
  split; [apply E|]. split.
  - intros Hinv. rewrite E.
    induction (providers m) as [|p ps IH]; cbn; [reflexivity|].
    replace (price_ok lo hi p) with false.
    + now rewrite andb_false_r.
    + unfold price_ok. symmetry. apply andb_false_iff.
      destruct (Z.leb_spec lo (Listing.price p)); [right | now left].
      apply Z.leb_gt. lia.
  - rewrite (E (set_providers _ m)), E. cbn [providers set_providers].
    rewrite filter_twice. apply List.filter_ext. intros p.
    apply andb_diag.
Qed.

Lemma filtered_data_is_one_filter_witness :
  decimal (price_min_var (Sample.filters "2.50" "5.00")) = Ok 250
  /\ decimal (price_max_var (Sample.filters "2.50" "5.00")) = Ok 500
  /\ _get_filtered_data decimal (Sample.filters "2.50" "5.00") Sample2.catalog
     = [Sample.item2].
Proof.
  split; [reflexivity|]. split; [reflexivity|].
  rewrite (proj1 (filtered_data_is_one_filter decimal
                    (Sample.filters "2.50" "5.00") Sample2.catalog 250 500
                    eq_refl eq_refl)).
  reflexivity.
Defined.

Lemma after_first_space_skips (flag tail : string) :
  after_first_space flag = None ->
  after_first_space (flag +:+ tail) = after_first_space tail.
Proof.
  induction flag as [|c flag IH]; [reflexivity|].
  change (String c flag +:+ tail)%string with (String c (flag +:+ tail)).
  cbn [after_first_space]. destruct (Ascii.eqb c " "); [discriminate | exact IH].
Qed.

Lemma after_first_space_append (flag rest : string) :
  after_first_space flag = None ->
  after_first_space (flag +:+ " " +:+ rest) = Some rest.
Proof.
  intros Hflag. now rewrite after_first_space_skips.
Qed.

Lemma with_space_is_not_all (flag rest : string) :
  String.eqb (flag +:+ " " +:+ rest) "all" = false.
Proof.
  apply String.eqb_neq. intros H.
  assert (Hsp : forall s tail, after_first_space (s +:+ " " +:+ tail) <> None).
  { intros s tail. induction s as [|c s IH]; [discriminate|].
    change (String c s +:+ " " +:+ tail)%string
      with (String c (s +:+ " " +:+ tail)).
    cbn [after_first_space]. now destruct (Ascii.eqb c " "). }
  apply (Hsp flag rest). now rewrite H.
Qed.

(** X7: the country box offers ["<flag> <name>"]; when the flag holds no
    space, choosing the entry of a country filters on exactly its name:
    the country step keeps the listings whose country has that name and
    no others, and every row returned is of that country. *)
Theorem country_choice_filters_by_name
    (float : string -> result Z) (f : Filters) (m : SMSMarketplace) (c : Country) :
  after_first_space (flag c) = None ->
  country_var f = (flag c +:+ " " +:+ name c)%string ->
  country_name_of (country_var f) = name c
  /\ (forall l,
        by_country f l
        = List.filter (fun p => String.eqb (name (Listing.country p)) (name c)) l)
  /\ (forall p, In p (_get_filtered_data float f m) -> name (Listing.country p) = name c).
Proof.
  intros Hflag Hvar.
  assert (Hname : country_name_of (country_var f) = name c).
  { unfold country_name_of. now rewrite Hvar, after_first_space_append. }
  assert (Hby : forall l,
             by_country f l
             = List.filter
                 (fun p => String.eqb (name (Listing.country p)) (name c)) l).
  { intros l. unfold by_country. rewrite Hname, Hvar.
    now rewrite with_space_is_not_all. }
  split; [exact Hname|]. split; [exact Hby|].
  intros p Hin. unfold _get_filtered_data in Hin.
  apply by_provider_In in Hin as [Hin _].
  assert (Hsub : forall l q, In q (by_price float f l) -> In q l).
  { intros l q. unfold by_price.
    destruct (float (price_min_var f)) as [lo|]; cbn; [|tauto].
    destruct (float (price_max_var f)) as [hi|]; cbn; [|tauto].
    rewrite filter_In. tauto. }
  apply Hsub in Hin. rewrite Hby, filter_In in Hin.
  destruct Hin as [_ Hc]. now apply String.eqb_eq.
Qed.

Lemma country_choice_filters_by_name_witness :
  after_first_space (flag Sample.us) = None
  /\ country_name_of (flag Sample.us +:+ " " +:+ name Sample.us) = "United States".
Proof.
  split; [reflexivity|].
  exact (proj1 (country_choice_filters_by_name decimal
                  {| service_var := "all";
                     country_var := flag Sample.us +:+ " " +:+ name Sample.us;
                     price_min_var := "0.00"; price_max_var := "5.00";
                     provider_var := "all" |}
                  Sample2.catalog Sample.us eq_refl eq_refl)).
Defined.

(** ** Sorting and showing the catalog *)

Section SortFacts.

Context {A : Type}.
Variable le : A -> A -> bool.

Lemma insert_sorted_perm (x : A) (l : list A) :
  Permutation (insert_sorted le x l) (x :: l).
Proof.
  induction l as [|y l IH]; cbn; [reflexivity|].
  destruct (le x y); [reflexivity|].
  rewrite IH. apply perm_swap.
Qed.

Lemma stable_sort_perm (l : list A) : Permutation (stable_sort le l) l.
Proof.
  induction l as [|x l IH]; cbn; [reflexivity|].
  rewrite insert_sorted_perm. now constructor.
Qed.

Lemma stable_sort_length (l : list A) : length (stable_sort le l) = length l.
Proof. apply Permutation_length, stable_sort_perm. Qed.

(** An element is never moved past one it does not have to follow: the
    elements picked out by [p], when they all compare as equal, keep
    their order. *)
Lemma insert_sorted_stable (p : A -> bool) (x : A) (l : list A) :
  (p x = true -> forall y, p y = true -> le x y = true) ->
  List.filter p (insert_sorted le x l) = List.filter p (x :: l).
Proof.
  intros Hx. induction l as [|y l IH]; cbn; [reflexivity|].
  destruct (le x y) eqn:Hle; [reflexivity|]. cbn. rewrite IH. cbn.
  destruct (p x) eqn:Hpx; [|reflexivity].
  destruct (p y) eqn:Hpy; [|reflexivity].
  rewrite (Hx eq_refl y Hpy) in Hle. discriminate.
Qed.

Lemma stable_sort_stable (p : A -> bool) (l : list A) :
  (forall x y, p x = true -> p y = true -> le x y = true) ->
  List.filter p (stable_sort le l) = List.filter p l.
Proof.
  intros Hp. unfold stable_sort. induction l as [|x l IH]; cbn; [reflexivity|].
  rewrite insert_sorted_stable by (intros Hx y Hy; now apply Hp).
  cbn. now rewrite IH.
Qed.

Hypothesis le_total : forall a b, le a b = true \/ le b a = true.

Lemma insert_sorted_HdRel (y x : A) (l : list A) :
  HdRel (fun a b => le a b = true) y l -> le y x = true ->
  HdRel (fun a b => le a b = true) y (insert_sorted le x l).
Proof.
  intros Hhd Hyx. destruct l as [|z l]; cbn.
  - now constructor.
  - destruct (le x z); constructor; [assumption|].
    now inversion Hhd.
Qed.

Lemma insert_sorted_Sorted (x : A) (l : list A) :
  Sorted (fun a b => le a b = true) l ->
  Sorted (fun a b => le a b = true) (insert_sorted le x l).
Proof.
  induction l as [|y l IH]; cbn; intros Hs.
  - repeat constructor.
  - destruct (le x y) eqn:Hle.
    + constructor; [assumption | now constructor].
    + apply Sorted_inv in Hs as [Hs Hhd]. constructor; [now apply IH|].
      apply insert_sorted_HdRel; [assumption|].
      destruct (le_total x y); congruence.
Qed.

Lemma stable_sort_Sorted (l : list A) :
  Sorted (fun a b => le a b = true) (stable_sort le l).
Proof.
  induction l as [|x l IH]; cbn; [constructor | now apply insert_sorted_Sorted].
Qed.

End SortFacts.

Lemma Sorted_take {A : Type} (R : A -> A -> Prop) (n : nat) (l : list A) :
  Sorted R l -> Sorted R (take n l).
Proof.
  revert n. induction l as [|x l IH]; intros [|n] Hs; cbn; try constructor.
  - apply IH. now apply Sorted_inv in Hs.
  - apply Sorted_inv in Hs as [_ Hhd]. destruct l as [|y l], n as [|n]; cbn;
      constructor. now inversion Hhd.
Qed.

Lemma Sorted_weaken {A : Type} (R S : A -> A -> Prop) (l : list A) :
  (forall a b, R a b -> S a b) -> Sorted R l -> Sorted S l.
Proof.
  intros HRS. induction 1 as [|x l Hs IH Hhd]; constructor; [assumption|].
  destruct Hhd; constructor. now apply HRS.
Qed.

Lemma In_drop {A : Type} (n : nat) (l : list A) (b : A) :
  In b (drop n l) -> In b l.
Proof.
  revert n. induction l as [|x l IH]; intros [|n]; cbn; try tauto.
  intros Hb. right. now apply (IH n).
Qed.

(** In a list sorted by price, what comes first costs no more than what
    comes after. *)
Lemma sorted_prefix_below_rest (l : list Listing.t) (n : nat) (a b : Listing.t) :
  Sorted (fun a b => Listing.price a <= Listing.price b) l ->
  In a (take n l) -> In b (drop n l) ->
  Listing.price a <= Listing.price b.
Proof.
  intros Hs. apply Sorted_StronglySorted in Hs.
  2:{ intros x y z Hxy Hyz. lia. }
  revert n. induction Hs as [|x l Hs IH Hall]; intros n Ha Hb.
  - destruct n; cbn in Ha; contradiction.
  - destruct n as [|n]; cbn in Ha, Hb; [contradiction|].
    destruct Ha as [<-|Ha].
    + rewrite List.Forall_forall in Hall. apply Hall. now apply In_drop in Hb.
    + now apply (IH n).
Qed.

Lemma rows_items (float : string -> result Z) (f : Filters) (key : string)
    (m : SMSMarketplace) :
  map row_item (snd (_populate_marketplace float f key m))
  = take 100 (sort_rows key (_get_filtered_data float f m)).
Proof.
  unfold _populate_marketplace. cbn [snd]. rewrite map_map. cbn [row_item].
  apply map_id.
Qed.

Lemma sort_rows_perm (key : string) (l : list Listing.t) :
  Permutation (sort_rows key l) l.
Proof.
  unfold sort_rows.
  repeat (destruct (String.eqb key _); [apply stable_sort_perm|]).
  reflexivity.
Qed.

(** X8: the rows of the marketplace tree are the first hundred of the
    filtered listings put in the order of the sort key: ascending price,
    descending success rate, ascending delivery time, country name or
    provider. Sorting loses and invents no listing. By price, listings
    with the same price stay in catalog order, and when more than a
    hundred match, the ones shown cost no more than the ones left out. *)
Theorem marketplace_rows_are_sorted
    (float : string -> result Z) (f : Filters) (m : SMSMarketplace) :
  (forall key,
     map row_item (snd (_populate_marketplace float f key m))
       = take 100 (sort_rows key (_get_filtered_data float f m))
     /\ (length (snd (_populate_marketplace float f key m)) <= 100)%nat
     /\ Permutation (sort_rows key (_get_filtered_data float f m))
          (_get_filtered_data float f m))
  /\ Sorted (fun a b => Listing.price a <= Listing.price b)
       (map row_item (snd (_populate_marketplace float f "price" m)))
  /\ Sorted (fun a b => Listing.success_rate b <= Listing.success_rate a)
       (map row_item (snd (_populate_marketplace float f "success_rate" m)))
  /\ Sorted (fun a b => Listing.avg_time a <= Listing.avg_time b)
       (map row_item (snd (_populate_marketplace float f "speed" m)))
  /\ Sorted (fun a b =>
               String.leb (name (Listing.country a)) (name (Listing.country b)) = true)
       (map row_item (snd (_populate_marketplace float f "country" m)))
  /\ Sorted (fun a b => String.leb (Listing.provider a) (Listing.provider b) = true)
       (map row_item (snd (_populate_marketplace float f "provider" m)))
  /\ (forall shown hidden,
        In shown (map row_item (snd (_populate_marketplace float f "price" m))) ->
        In hidden (drop 100 (sort_rows "price" (_get_filtered_data float f m))) ->
        Listing.price shown <= Listing.price hidden)
  /\ (forall v,
        List.filter (fun p => Listing.price p =? v)
          (sort_rows "price" (_get_filtered_data float f m))
        = List.filter (fun p => Listing.price p =? v) (_get_filtered_data float f m)).
Proof.
  set (filtered := _get_filtered_data float f m).
  assert (Hprice : Sorted (fun a b => Listing.price a <= Listing.price b)
                     (sort_rows "price" filtered)).
  { change (sort_rows "price" filtered)
      with (stable_sort (fun a b => Listing.price a <=? Listing.price b) filtered).
    eapply Sorted_weaken; [|apply stable_sort_Sorted].
    - intros a b. apply Z.leb_le.
    - intros a b. rewrite !Z.leb_le. lia. }
  split.
  { intros key. rewrite rows_items. fold filtered. repeat split.
    - rewrite <- (length_map row_item), rows_items, length_take. lia.
    - apply sort_rows_perm. }
  rewrite !rows_items. fold filtered.
  split; [now apply Sorted_take|].
  split.
  { apply Sorted_take.
    change (sort_rows "success_rate" filtered)
      with (stable_sort
              (fun a b => Listing.success_rate b <=? Listing.success_rate a) filtered).
    eapply Sorted_weaken; [|apply stable_sort_Sorted].
    - intros a b. apply Z.leb_le.
    - intros a b. rewrite !Z.leb_le. lia. }
  split.
  { apply Sorted_take.
    change (sort_rows "speed" filtered)
      with (stable_sort (fun a b => Listing.avg_time a <=? Listing.avg_time b) filtered).
    eapply Sorted_weaken; [|apply stable_sort_Sorted].
    - intros a b. apply Z.leb_le.
    - intros a b. rewrite !Z.leb_le. lia. }
  split.
  { apply Sorted_take.
    change (sort_rows "country" filtered)
      with (stable_sort
              (fun a b => String.leb (name (Listing.country a))
                            (name (Listing.country b))) filtered).
    apply stable_sort_Sorted. intros a b. apply String.leb_total. }
  split.
  { apply Sorted_take.
    change (sort_rows "provider" filtered)
      with (stable_sort
              (fun a b => String.leb (Listing.provider a) (Listing.provider b))
              filtered).
    apply stable_sort_Sorted. intros a b. apply String.leb_total. }
  split.
  { intros shown hidden. now apply sorted_prefix_below_rest. }
  intros v.
  change (sort_rows "price" filtered)
    with (stable_sort (fun a b => Listing.price a <=? Listing.price b) filtered).
  apply stable_sort_stable. intros x y Hx Hy.
  apply Z.eqb_eq in Hx, Hy. apply Z.leb_le. lia.
Qed.

Lemma marketplace_rows_are_sorted_witness :
  let m := set_providers (Sample.item2 :: replicate 100 Sample.item1) Sample2.catalog in
  In Sample.item1
    (map row_item (snd (_populate_marketplace decimal Sample2.no_filter "price" m)))
  /\ In Sample.item2
       (drop 100 (sort_rows "price" (_get_filtered_data decimal Sample2.no_filter m)))
  /\ Listing.price Sample.item1 <= Listing.price Sample.item2.
Proof.
  cbv zeta.
  assert (Hshown :
    In Sample.item1
      (map row_item
         (snd (_populate_marketplace decimal Sample2.no_filter "price"
                 (set_providers (Sample.item2 :: replicate 100 Sample.item1)
                    Sample2.catalog)))))
    by (vm_compute; left; reflexivity).
  assert (Hhidden :
    In Sample.item2
      (drop 100
         (sort_rows "price"
            (_get_filtered_data decimal Sample2.no_filter
               (set_providers (Sample.item2 :: replicate 100 Sample.item1)
                  Sample2.catalog)))))
    by (vm_compute; left; reflexivity).
  split; [exact Hshown|]. split; [exact Hhidden|].
  pose proof (marketplace_rows_are_sorted decimal Sample2.no_filter
                (set_providers (Sample.item2 :: replicate 100 Sample.item1)
                   Sample2.catalog)) as H.
  destruct H as (_ & _ & _ & _ & _ & _ & H & _).
  exact (H Sample.item1 Sample.item2 Hshown Hhidden).
Defined.

(** X9: the "Quality" and "Service" column headers set a sort key that
    the sorting chain does not know, as does any key outside its five: the
    rows then come in the order of the filtered catalog, unsorted. *)
Theorem unknown_sort_key_leaves_order
    (float : string -> result Z) (f : Filters) (m : SMSMarketplace)
    (sort_var : string) :
  map row_item
    (snd (_populate_marketplace float f (_sort_by_column "Quality" sort_var) m))
    = take 100 (_get_filtered_data float f m)
  /\ map row_item
       (snd (_populate_marketplace float f (_sort_by_column "Service" sort_var) m))
     = take 100 (_get_filtered_data float f m)
  /\ (forall key,
        ~ In key ["price"; "success_rate"; "speed"; "country"; "provider"] ->
        map row_item (snd (_populate_marketplace float f key m))
        = take 100 (_get_filtered_data float f m)).
Proof.
  rewrite !rows_items. repeat split.
  intros key Hkey. rewrite rows_items. f_equal. unfold sort_rows.
  repeat match goal with
         | |- context [String.eqb key ?k] =>
             destruct (String.eqb_spec key k) as [->|_];
             [exfalso; apply Hkey; cbn; tauto|]
         end.
  reflexivity.
Qed.

Lemma unknown_sort_key_leaves_order_witness :
  ~ In "quality_score" ["price"; "success_rate"; "speed"; "country"; "provider"]
  /\ map row_item
       (snd (_populate_marketplace decimal Sample2.no_filter "quality_score"
               Sample2.catalog))
     = take 100 (_get_filtered_data decimal Sample2.no_filter Sample2.catalog).
Proof.
  assert (H : ~ In "quality_score"
                ["price"; "success_rate"; "speed"; "country"; "provider"])
    by (intros [H|[H|[H|[H|[H|[]]]]]]; discriminate H).
  split; [exact H|].
  exact (proj2 (proj2 (unknown_sort_key_leaves_order decimal Sample2.no_filter
                         Sample2.catalog "price"))
           "quality_score" H).
Defined.

Lemma unfiltered_is_catalog (float : string -> result Z) (f : Filters)
    (m : SMSMarketplace) :
  filter_copies float f = false -> _get_filtered_data float f m = providers m.
Proof.
  unfold filter_copies. intros H.
  apply orb_false_iff in H as [H Hprov].
  apply orb_false_iff in H as [H Hprice].
  apply orb_false_iff in H as [Hserv Hcountry].
  unfold _get_filtered_data, by_service, by_country, by_provider, by_price.
  rewrite Hserv, Hcountry, Hprov.
  destruct (float (price_min_var f)) as [lo|]; cbn; [|reflexivity].
  destruct (float (price_max_var f)) as [hi|]; cbn; [discriminate | reflexivity].
Qed.

(** X10: the view is sorted in place. When a filter applies, the list
    sorted is a copy and the catalog is left alone; when none applies
    (every box on "all" and a price range that does not read as numbers),
    the list sorted is the catalog itself, which comes out reordered by
    the sort key. Nothing else of the marketplace changes. *)
Theorem sorting_the_view_can_reorder_the_catalog
    (float : string -> result Z) (f : Filters) (key : string) (m : SMSMarketplace) :
  (filter_copies float f = true ->
     fst (_populate_marketplace float f key m) = m)
  /\ (filter_copies float f = false ->
      providers (fst (_populate_marketplace float f key m))
        = sort_rows key (providers m)
      /\ Permutation (providers (fst (_populate_marketplace float f key m)))
           (providers m)
      /\ cart (fst (_populate_marketplace float f key m)) = cart m
      /\ owned_numbers (fst (_populate_marketplace float f key m)) = owned_numbers m
      /\ wallet (fst (_populate_marketplace float f key m)) = wallet m).
Proof.
  unfold _populate_marketplace. cbn [fst]. split; intros Hc; rewrite Hc.
  - reflexivity.
  - rewrite (unfiltered_is_catalog float f m Hc). cbn. repeat split.
    apply sort_rows_perm.
Qed.

Lemma sorting_the_view_can_reorder_the_catalog_witness :
  filter_copies decimal Sample2.no_filter = false
  /\ providers (fst (_populate_marketplace decimal Sample2.no_filter "price"
                       Sample2.catalog))
     = sort_rows "price" (providers Sample2.catalog).
Proof.
  split; [reflexivity|].
  exact (proj1 (proj2 (sorting_the_view_can_reorder_the_catalog decimal
                         Sample2.no_filter "price" Sample2.catalog)
                  eq_refl)).
Defined.

Lemma sorting_the_view_reorders_sample_catalog :
  filter_copies decimal Sample2.no_filter = false
  /\ providers Sample2.catalog = [Sample.item2; Sample.item1; Sample2.item3]
  /\ providers (fst (_populate_marketplace decimal Sample2.no_filter "price"
                       Sample2.catalog))
     = [Sample2.item3; Sample.item1; Sample.item2].
Proof. repeat split. Qed.

(** ** Fetching codes without a provider module *)

Lemma fetch_without_provider_class (draw : option Z) (now : string) (n : Owned.t) :
  provider_id_of n <> "demo" \/ Owned.activation_id n = "" ->
  _fetch_sms_codes_from_provider draw now n = [].
Proof.
  unfold _fetch_sms_codes_from_provider, in_PROVIDERS.
  intros [Hp | Ha].
  - destruct (String.eqb (Owned.activation_id n) ""); [reflexivity|].
    apply String.eqb_neq in Hp. now rewrite Hp.
  - now rewrite Ha.
Qed.

Lemma acquired_providers (rng : Rng) (now : Clock) (items : list Listing.t)
    (P : string -> Prop) :
  Forall (fun item => P (Listing.provider item)) items ->
  forall i, Forall (fun n => P (Owned.provider n)) (acquired rng now i items).
Proof.
  induction 1 as [|item items Hitem _ IH]; intros i; cbn; [constructor|].
  destruct (rng i); [constructor; [exact Hitem|]|]; apply IH.
Qed.

(** X11: with the provider table of this file, whose one entry ['demo']
    is not a provider class, a fetch returns no code for a number whose
    provider id (lower case, hyphens as underscores) is not ['demo'] or
    whose activation id is empty, and at most one made-up code, carrying
    the number's own number, service and activation id, otherwise. So no
    number bought from a cart whose providers are not ['demo'] ever gets a
    code. *)
Theorem no_code_for_numbers_of_other_providers
    (rng : Rng) (clock : Clock) (items : list Listing.t)
    (draw : option Z) (now : string) :
  Forall (fun item =>
            hyphens_to_underscores (lower (Listing.provider item)) <> "demo") items ->
  Forall (fun n => _fetch_sms_codes_from_provider draw now n = [])
    (acquired rng clock 0 items)
  /\ (forall n,
        _fetch_sms_codes_from_provider draw now n = []
        \/ exists k,
             draw = Some k
             /\ provider_id_of n = "demo"
             /\ _fetch_sms_codes_from_provider draw now n = [demo_code k now n]).
Proof.
  intros Hitems. split.
  - pose proof (acquired_providers rng clock items
                  (fun p => hyphens_to_underscores (lower p) <> "demo") Hitems 0%nat)
      as Hacq.
    eapply List.Forall_impl; [|exact Hacq].
    intros n Hn. apply fetch_without_provider_class. now left.
  - intros n. unfold _fetch_sms_codes_from_provider, in_PROVIDERS.
    destruct (String.eqb (Owned.activation_id n) ""); [now left|].
    destruct (String.eqb_spec (provider_id_of n) "demo") as [Hd|Hd]; cbn.
    + destruct draw as [k|]; [right; exists k; now repeat split | now left].
    + now left.
Qed.

Lemma no_code_for_numbers_of_other_providers_witness :
  Forall (fun item =>
            hyphens_to_underscores (lower (Listing.provider item)) <> "demo")
    [Sample.item1; Sample.item2]
  /\ Forall (fun n => _fetch_sms_codes_from_provider (Some 123456)
                        "2025-01-01 12:00:05" n = [])
       (acquired Sample.all_allocated Sample.clock 0 [Sample.item1; Sample.item2]).
Proof.
  assert (H : Forall (fun item =>
                        hyphens_to_underscores (lower (Listing.provider item)) <> "demo")
                [Sample.item1; Sample.item2]).
  { repeat constructor; discriminate. }
  split; [exact H|].
  exact (proj1 (no_code_for_numbers_of_other_providers Sample.all_allocated
                  Sample.clock [Sample.item1; Sample.item2] (Some 123456)
                  "2025-01-01 12:00:05" H)).
Defined.

(** The providers the catalog is generated from. *)
Lemma marketplace_providers_have_no_class :
  Forall (fun p => in_PROVIDERS (hyphens_to_underscores (lower p)) = false)
    ["SMS-Activate"; "5SIM"; "SMS-Man"; "GetSMSCode"; "SMS-Hub"].
Proof. repeat constructor. Qed.

(** ** Choosing the numbers to watch *)

Lemma add_selected_keeps_watch (selections : list nat) (active_numbers : list Owned.t) :
  forall watch added_count,
    fst (add_selected selections active_numbers watch added_count) = watch.
Proof.
  induction selections as [|idx rest IH]; intros watch k; cbn; [reflexivity|].
  destruct (active_numbers !! idx) as [nd|]; [|reflexivity].
  destruct (already_monitoring nd watch); [apply IH | reflexivity].
Qed.

Section WatchFacts.

Context {DB : Type}.

Lemma watch_step_idle (m : SMSMarketplace) (ev : WatchEvent) (mon : Monitor (DB := DB)) :
  monitoring_numbers mon = [] ->
  monitoring_active mon = false ->
  monitoring_numbers (watch_step m ev mon) = []
  /\ monitoring_active (watch_step m ev mon) = false
  /\ worker (watch_step m ev mon) = worker mon
  /\ journal (watch_step m ev mon) = journal mon.
Proof.
  intros Hn Ha. destruct ev as [selections| |]; cbn [watch_step].
  - cbn. now rewrite add_selected_keeps_watch.
  - unfold _start_sms_monitoring. now rewrite Ha, Hn.
  - cbn. now repeat split.
Qed.

End WatchFacts.

(** X12: the watch set is a [set] and the numbers offered are
    dictionaries, so adding one raises [TypeError] and adds nothing:
    [add_selected] never changes the watch set, and ends in the exception
    as soon as a selected number is not watched yet. From the empty watch
    set the marketplace starts with, no sequence of "add", "start" and
    "stop" makes the set non-empty, turns monitoring on or starts a
    worker. *)
Theorem watch_set_never_grows
    {DB : Type} (m : SMSMarketplace) (evs : list WatchEvent)
    (mon : Monitor (DB := DB)) :
  monitoring_numbers mon = [] ->
  monitoring_active mon = false ->
  monitoring_numbers (watch_run m evs mon) = []
  /\ monitoring_active (watch_run m evs mon) = false
  /\ worker (watch_run m evs mon) = worker mon
  /\ journal (watch_run m evs mon) = journal mon
  /\ (forall idx rest number_data,
        offered_for_monitoring m !! idx = Some number_data ->
        add_selected (idx :: rest) (offered_for_monitoring m) [] 0
        = ([], UnhashableDict)).
Proof.
  intros Hn Ha.
  assert (Hrun : monitoring_numbers (watch_run m evs mon) = []
                 /\ monitoring_active (watch_run m evs mon) = false
                 /\ worker (watch_run m evs mon) = worker mon
                 /\ journal (watch_run m evs mon) = journal mon).
  { revert mon Hn Ha. induction evs as [|ev evs IH]; intros mon Hn Ha.
    - now repeat split.
    - destruct (watch_step_idle m ev mon Hn Ha) as (H1 & H2 & H3 & H4).
      change (watch_run m (ev :: evs) mon) with (watch_run m evs (watch_step m ev mon)).
      destruct (IH _ H1 H2) as (H5 & H6 & H7 & H8).
      repeat split; congruence. }
  destruct Hrun as (H1 & H2 & H3 & H4).
  repeat split; try assumption.
  intros idx rest nd Hnd. cbn. now rewrite Hnd.
Qed.

Lemma watch_set_never_grows_witness :
  monitoring_numbers
    (with_numbers [] (Sample.idle "5")) = []
  /\ monitoring_active (with_numbers [] (Sample.idle "5")) = false
  /\ monitoring_active
       (watch_run (Sample.inventory [Sample.n1 active; Sample.n2])
          [AddSelected [0%nat; 1%nat]; PressStart]
          (with_numbers [] (Sample.idle "5")))
     = false.
Proof.
  split; [reflexivity|]. split; [reflexivity|].
  exact (proj1 (proj2
           (watch_set_never_grows (Sample.inventory [Sample.n1 active; Sample.n2])
              [AddSelected [0%nat; 1%nat]; PressStart]
              (with_numbers [] (Sample.idle "5")) eq_refl eq_refl))).
Defined.

(** ** Monitoring worker, continued *)

Section WorkerFacts.

Context {DB : Type}.
Variable execute_insert : Code.t -> DB -> result DB.
Variable log_app_event : Code.t -> DB -> result DB.
Variable float : string -> result Z.

Local Abbreviation step1 := (move execute_insert log_app_event float).
Local Abbreviation steps := (play execute_insert log_app_event float).
Local Abbreviation handle := (on_code execute_insert log_app_event).

Lemma steps_app (a b : list Move) (m : Monitor) :
  steps (a ++ b) m = steps b (steps a m).
Proof. unfold play. apply fold_left_app. Qed.

(** A worker that has died stays dead and leaves no trace. *)
Lemma dead_worker_step (mv : Move) (m : Monitor) (e : Exn) :
  worker m = Died e ->
  worker (step1 mv m) = Died e
  /\ cycles_started (timeline (step1 mv m)) = cycles_started (timeline m)
  /\ fetches (timeline (step1 mv m)) = fetches (timeline m)
  /\ new_codes (timeline (step1 mv m)) = new_codes (timeline m)
  /\ sleeps (timeline (step1 mv m)) = sleeps (timeline m)
  /\ journal (step1 mv m) = journal m.
Proof.
  intros Hw. destruct mv as [fetched| | |s]; cbn [move].
  - unfold worker_step. rewrite Hw. now repeat split.
  - unfold worker_fault. rewrite Hw. now repeat split.
  - cbn [_stop_sms_monitoring timeline worker journal].
    rewrite cycles_started_app, fetches_app, new_codes_app, sleeps_app. cbn.
    rewrite !app_nil_r. repeat split; try assumption; lia.
  - cbn. now repeat split.
Qed.

Lemma dead_worker_steps (moves : list Move) :
  forall (m : Monitor) (e : Exn),
    worker m = Died e ->
    worker (steps moves m) = Died e
    /\ cycles_started (timeline (steps moves m)) = cycles_started (timeline m)
    /\ fetches (timeline (steps moves m)) = fetches (timeline m)
    /\ new_codes (timeline (steps moves m)) = new_codes (timeline m)
    /\ sleeps (timeline (steps moves m)) = sleeps (timeline m)
    /\ journal (steps moves m) = journal m.
Proof.
  induction moves as [|mv moves IH]; intros m e Hw.
  - now repeat split.
  - destruct (dead_worker_step mv m e Hw) as (H1 & H2 & H3 & H4 & H5 & H6).
    change (steps (mv :: moves) m) with (steps moves (step1 mv m)).
    destruct (IH _ e H1) as (K1 & K2 & K3 & K4 & K5 & K6).
    repeat split; congruence.
Qed.

(** The codes in hand are handled one per step. *)
Lemma emit_codes (p : Z) (todo : list Owned.t) (codes : list Code.t) :
  forall m : Monitor,
    worker m = Checking p todo codes ->
    worker (steps (map (fun _ => WorkerStep []) codes) m) = Checking p todo []
    /\ journal (steps (map (fun _ => WorkerStep []) codes) m)
       = fold_left (fun j c => handle c j) codes (journal m)
    /\ new_codes (timeline (steps (map (fun _ => WorkerStep []) codes) m))
       = new_codes (timeline m) ++ codes
    /\ monitoring_numbers (steps (map (fun _ => WorkerStep []) codes) m)
       = monitoring_numbers m
    /\ monitoring_active (steps (map (fun _ => WorkerStep []) codes) m)
       = monitoring_active m
    /\ cycles_started (timeline (steps (map (fun _ => WorkerStep []) codes) m))
       = cycles_started (timeline m).
Proof.
  induction codes as [|c codes IH]; intros m Hw.
  - cbn. rewrite app_nil_r. now repeat split.
  - cbn [map].
    change (steps (WorkerStep [] :: map (fun _ => WorkerStep []) codes) m)
      with (steps (map (fun _ => WorkerStep []) codes)
              (worker_step execute_insert log_app_event float [] m)).
    assert (Hs : worker_step execute_insert log_app_event float [] m
                 = at_pc (Checking p todo codes) [NewCode c]
                     (with_journal (handle c (journal m)) m)).
    { unfold worker_step. rewrite Hw. now destruct todo. }
    rewrite Hs.
    destruct (IH (at_pc (Checking p todo codes) [NewCode c]
                    (with_journal (handle c (journal m)) m)) eq_refl)
      as (H1 & H2 & H3 & H4 & H5 & H6).
    rewrite H1, H2, H3, H4, H5, H6. cbn [at_pc with_journal timeline journal
      monitoring_numbers monitoring_active fold_left].
    rewrite new_codes_app, cycles_started_app, <- app_assoc. cbn.
    repeat split; lia.
Qed.

(** Each number still to poll is fetched, then its codes are handled. *)
Lemma poll_numbers (fetch : Owned.t -> list Code.t) (p : Z) (numbers : list Owned.t) :
  forall m : Monitor,
    worker m = Checking p numbers [] ->
    worker (steps (poll_moves fetch numbers) m) = Checking p [] []
    /\ journal (steps (poll_moves fetch numbers) m)
       = _check_for_sms_codes execute_insert log_app_event fetch numbers (journal m)
    /\ new_codes (timeline (steps (poll_moves fetch numbers) m))
       = new_codes (timeline m) ++ flat_map fetch numbers
    /\ monitoring_numbers (steps (poll_moves fetch numbers) m) = monitoring_numbers m
    /\ monitoring_active (steps (poll_moves fetch numbers) m) = monitoring_active m
    /\ cycles_started (timeline (steps (poll_moves fetch numbers) m))
       = cycles_started (timeline m).
Proof.
  induction numbers as [|n numbers IH]; intros m Hw.
  - cbn. rewrite app_nil_r. now repeat split.
  - cbn [poll_moves flat_map].
    change (steps (WorkerStep (fetch n)
                   :: map (fun _ => WorkerStep []) (fetch n) ++ poll_moves fetch numbers)
              m)
      with (steps (map (fun _ => WorkerStep []) (fetch n) ++ poll_moves fetch numbers)
              (worker_step execute_insert log_app_event float (fetch n) m)).
    assert (Hs : worker_step execute_insert log_app_event float (fetch n) m
                 = at_pc (Checking p numbers (fetch n)) [Fetched n] m).
    { unfold worker_step. now rewrite Hw. }
    rewrite Hs, steps_app.
    destruct (emit_codes p numbers (fetch n)
                (at_pc (Checking p numbers (fetch n)) [Fetched n] m) eq_refl)
      as (E1 & E2 & E3 & E4 & E5 & E6).
    destruct (IH _ E1) as (H1 & H2 & H3 & H4 & H5 & H6).
    rewrite H1, H2, H3, H4, H5, H6, E2, E3, E4, E5, E6.
    cbn [at_pc timeline journal monitoring_numbers monitoring_active].
    rewrite new_codes_app, cycles_started_app, app_nil_r, <- app_assoc. cbn.
    repeat split; lia.
Qed.

End WorkerFacts.

(** X13: a poll interval that is neither empty nor a number ends the
    worker thread at its first statement, with the monitoring flag left
    as it was. Whatever happens afterwards, that worker starts no cycle,
    fetches nothing and stores no code; and while the flag stays on,
    pressing "start" again does nothing. *)
Theorem malformed_interval_ends_worker
    {DB : Type} (execute_insert log_app_event : Code.t -> DB -> result DB)
    (float : string -> result Z) (fetched : list Code.t) (moves : list Move)
    (m : Monitor) (e : Exn) :
  worker m = Spawned ->
  String.eqb (poll_interval_var m) "" = false ->
  float (poll_interval_var m) = Raise e ->
  let m1 := worker_step execute_insert log_app_event float fetched m in
  let m2 := play execute_insert log_app_event float moves m1 in
  worker m1 = Died e
  /\ monitoring_active m1 = monitoring_active m
  /\ worker m2 = Died e
  /\ cycles_started (timeline m2) = cycles_started (timeline m)
  /\ fetches (timeline m2) = fetches (timeline m)
  /\ new_codes (timeline m2) = new_codes (timeline m)
  /\ journal m2 = journal m
  /\ (monitoring_active m2 = true -> _start_sms_monitoring m2 = m2).
Proof.
  intros Hw Hne Hbad. cbv zeta.
  assert (Hs : worker_step execute_insert log_app_event float fetched m
               = at_pc (Died e) [] m).
  { unfold worker_step, read_poll_interval. now rewrite Hw, Hne, Hbad. }
  rewrite Hs.
  destruct (dead_worker_steps execute_insert log_app_event float moves
              (at_pc (Died e) [] m) e eq_refl) as (H1 & H2 & H3 & H4 & _ & H6).
  cbn [at_pc timeline journal] in H2, H3, H4, H6. rewrite app_nil_r in H2, H3, H4.
  repeat split; try assumption.
  intros Hon. unfold _start_sms_monitoring. now rewrite Hon.
Qed.

Lemma malformed_interval_ends_worker_witness :
  worker (_start_sms_monitoring (Sample.idle "fast")) = Spawned
  /\ String.eqb (poll_interval_var (_start_sms_monitoring (Sample.idle "fast"))) ""
     = false
  /\ decimal (poll_interval_var (_start_sms_monitoring (Sample.idle "fast")))
     = Raise ValueError
  /\ cycles_started
       (timeline
          (play Sample.table_insert Sample.table_log decimal
             [WorkerStep [Sample.code_for_n1]; SetInterval "5"; WorkerStep []]
             (worker_step Sample.table_insert Sample.table_log decimal []
                (_start_sms_monitoring (Sample.idle "fast")))))
     = 0%nat.
Proof.
  split; [reflexivity|]. split; [reflexivity|]. split; [reflexivity|].
  pose proof (malformed_interval_ends_worker Sample.table_insert Sample.table_log
                decimal []
                [WorkerStep [Sample.code_for_n1]; SetInterval "5"; WorkerStep []]
                (_start_sms_monitoring (Sample.idle "fast")) ValueError
                eq_refl eq_refl eq_refl) as H.
  cbv zeta in H. destruct H as (_ & _ & _ & H & _).
  rewrite H. reflexivity.
Defined.

(** X14: a cycle that nothing interrupts, taken step by step, does what
    [_check_for_sms_codes] does in one go: from the loop test with the
    flag on, the steps of one cycle leave the journal that
    [_check_for_sms_codes] computes from the same fetches, have emitted
    exactly the fetched codes in order, and leave the worker at its
    sleep. *)
Theorem uninterrupted_cycle_is_check_for_sms_codes
    {DB : Type} (execute_insert log_app_event : Code.t -> DB -> result DB)
    (float : string -> result Z) (fetch : Owned.t -> list Code.t)
    (m : Monitor) (p : Z) :
  worker m = LoopTest p ->
  monitoring_active m = true ->
  let m' := play execute_insert log_app_event float
              (cycle_moves fetch (monitoring_numbers m)) m in
  journal m'
    = _check_for_sms_codes execute_insert log_app_event fetch
        (monitoring_numbers m) (journal m)
  /\ new_codes (timeline m')
     = new_codes (timeline m) ++ flat_map fetch (monitoring_numbers m)
  /\ worker m' = Sleep p
  /\ cycles_started (timeline m') = S (cycles_started (timeline m)).
Proof.
  intros Hw Hon. cbv zeta. unfold cycle_moves.
  change (play execute_insert log_app_event float
            (WorkerStep [] :: poll_moves fetch (monitoring_numbers m) ++ [WorkerStep []])
            m)
    with (play execute_insert log_app_event float
            (poll_moves fetch (monitoring_numbers m) ++ [WorkerStep []])
            (worker_step execute_insert log_app_event float [] m)).
  assert (Hs : worker_step execute_insert log_app_event float [] m
               = at_pc (Checking p (monitoring_numbers m) []) [CycleStarted] m).
  { unfold worker_step. now rewrite Hw, Hon. }
  rewrite Hs, steps_app.
  destruct (poll_numbers execute_insert log_app_event float fetch p
              (monitoring_numbers m)
              (at_pc (Checking p (monitoring_numbers m) []) [CycleStarted] m) eq_refl)
    as (H1 & H2 & H3 & _ & _ & H6).
  set (mid := play execute_insert log_app_event float
                (poll_moves fetch (monitoring_numbers m))
                (at_pc (Checking p (monitoring_numbers m) []) [CycleStarted] m)) in *.
  assert (Hlast : play execute_insert log_app_event float [WorkerStep []] mid
                  = at_pc (Sleep p) [] mid).
  { cbn. unfold worker_step. now rewrite H1. }
  rewrite Hlast. cbn [at_pc journal timeline worker]. rewrite app_nil_r.
  rewrite H2, H3, H6. cbn [at_pc journal timeline].
  rewrite new_codes_app, cycles_started_app.
  cbn [new_codes flat_map app]. rewrite app_nil_r. cbn. repeat split. lia.
Qed.

Lemma uninterrupted_cycle_is_check_for_sms_codes_witness :
  let running :=
    play Sample.table_insert Sample.table_log decimal [WorkerStep []]
      (_start_sms_monitoring (Sample.idle "5")) in
  worker running = LoopTest 500
  /\ monitoring_active running = true
  /\ sms_codes
       (journal
          (play Sample.table_insert Sample.table_log decimal
             (cycle_moves (Sample.codes_for_n1 [Sample.code_for_n1])
                (monitoring_numbers running))
             running))
     = [Sample.code_for_n1].
Proof.
  cbv zeta. split; [reflexivity|]. split; [reflexivity|].
  pose proof (uninterrupted_cycle_is_check_for_sms_codes Sample.table_insert
                Sample.table_log decimal
                (Sample.codes_for_n1 [Sample.code_for_n1])
                (play Sample.table_insert Sample.table_log decimal [WorkerStep []]
                   (_start_sms_monitoring (Sample.idle "5")))
                500 eq_refl eq_refl) as H.
  cbv zeta in H. destruct H as (H & _). rewrite H. reflexivity.
Defined.

(** ** Session guard under cleared flags *)

Lemma guard_step_keeps_wrapper (ev : GuardEvent) (cls : SessionGuard.TelegramClient)
    (orig : SessionGuard.Method) :
  SessionGuard.log_out cls = SessionGuard.guarded_log_out ->
  SessionGuard._orig_log_out cls = Some orig ->
  SessionGuard.log_out (guard_step ev cls) = SessionGuard.guarded_log_out
  /\ SessionGuard._orig_log_out (guard_step ev cls) = Some orig.
Proof.
  intros Hl Ho. destruct ev as [|deleted]; cbn [guard_step].
  - unfold SessionGuard.enable_logout_protection.
    destruct (default false (SessionGuard._logout_guard_enabled cls)); cbn.
    + now split.
    + now rewrite Ho.
  - cbn. now split.
Qed.

Lemma guard_run_keeps_wrapper (evs : list GuardEvent) :
  forall (cls : SessionGuard.TelegramClient) (orig : SessionGuard.Method),
    SessionGuard.log_out cls = SessionGuard.guarded_log_out ->
    SessionGuard._orig_log_out cls = Some orig ->
    SessionGuard.log_out (guard_run evs cls) = SessionGuard.guarded_log_out
    /\ SessionGuard._orig_log_out (guard_run evs cls) = Some orig.
Proof.
  induction evs as [|ev evs IH]; intros cls orig Hl Ho; [now split|].
  destruct (guard_step_keeps_wrapper ev cls orig Hl Ho) as [Hl' Ho'].
  exact (IH _ _ Hl' Ho').
Qed.

(** X15: once the guard has been installed over a vendor [log_out],
    enabling it again and clearing or deleting its enabled flag, in any
    order and any number of times, never stores the wrapper as the saved
    original: [log_out] stays the wrapper, [_orig_log_out] stays the
    vendor's method, and a [log_out()] call raises unless
    ALLOW_TELEGRAM_LOGOUT is ["1"], in which case it runs the vendor's
    method (it never recurses into itself). *)
Theorem guard_survives_cleared_flag
    (cls : SessionGuard.TelegramClient) (impl : nat) (evs : list GuardEvent)
    (environ : gmap string string) :
  SessionGuard.log_out cls = SessionGuard.vendor_log_out impl ->
  SessionGuard._orig_log_out cls = None ->
  default false (SessionGuard._logout_guard_enabled cls) = false ->
  SessionGuard.log_out (guard_run (Enable :: evs) cls) = SessionGuard.guarded_log_out
  /\ SessionGuard._orig_log_out (guard_run (Enable :: evs) cls)
     = Some (SessionGuard.vendor_log_out impl)
  /\ SessionGuard.client_log_out (guard_run (Enable :: evs) cls) environ
     = if SessionGuard.allow environ
       then Ok (SessionGuard.LoggedOut impl)
       else Raise RuntimeError.
Proof.
  intros Hl Ho Hf.
  change (guard_run (Enable :: evs) cls) with (guard_run evs (guard_step Enable cls)).
  assert (H1 : guard_step Enable cls = SessionGuard.guarded_class impl).
  { cbn [guard_step]. now rewrite (enable_first cls impl Hl Ho Hf). }
  rewrite H1.
  destruct (guard_run_keeps_wrapper evs (SessionGuard.guarded_class impl)
              (SessionGuard.vendor_log_out impl) eq_refl eq_refl) as [Hl' Ho'].
  split; [exact Hl'|]. split; [exact Ho'|].
  unfold SessionGuard.client_log_out, SessionGuard.recursion_limit.
  rewrite Hl'. cbn [SessionGuard.call]. rewrite Ho'.
  destruct (SessionGuard.allow environ); reflexivity.
Qed.

Lemma guard_survives_cleared_flag_witness :
  SessionGuard.log_out Sample.pristine = SessionGuard.vendor_log_out 0
  /\ SessionGuard._orig_log_out Sample.pristine = None
  /\ default false (SessionGuard._logout_guard_enabled Sample.pristine) = false
  /\ SessionGuard._orig_log_out
       (guard_run [Enable; ClearFlag false; Enable; ClearFlag true; Enable]
          Sample.pristine)
     = Some (SessionGuard.vendor_log_out 0).
Proof.
  split; [reflexivity|]. split; [reflexivity|]. split; [reflexivity|].
  exact (proj1 (proj2 (guard_survives_cleared_flag Sample.pristine 0
                         [ClearFlag false; Enable; ClearFlag true; Enable]
                         ∅ eq_refl eq_refl eq_refl))).
Defined.

(** ** The inventory only grows under the purchase handlers *)

Lemma acquired_fresh (rng : Rng) (now : Clock) (items : list Listing.t) :
  forall i,
    Forall (fun n => Owned.status n = active /\ Owned.last_used n = "Never")
      (acquired rng now i items).
Proof.
  induction items as [|item items IH]; intros i; cbn; [constructor|].
  destruct (rng i); [constructor; [now split|]|]; apply IH.
Qed.

Lemma perform_appends (a : Action) (m : SMSMarketplace) :
  exists added,
    owned_numbers (perform a m) = owned_numbers m ++ added
    /\ Forall (fun n => Owned.status n = active /\ Owned.last_used n = "Never") added.
Proof.
  destruct a as [c sel|b yes|ans refreshed rng now|item confirmed n now];
    cbn [perform].
  - exists []. rewrite app_nil_r. split; [reflexivity|constructor].
  - exists []. rewrite app_nil_r.
    split; [apply quick_topup_inventory|constructor].
  - pose proof (checkout_cases ans refreshed rng now m) as H. cbv zeta in H.
    destruct (cart m) as [|item rest] eqn:Hcart.
    + rewrite H. exists []. rewrite app_nil_r. split; [reflexivity|constructor].
    + destruct (Wallet.balance (wallet m) <? total_price (item :: rest)).
      * destruct H as (_ & Ho & _). exists []. rewrite app_nil_r.
        split; [exact Ho|constructor].
      * destruct (purchase_confirmed ans).
        -- match type of H with
           | (if ?b then _ else _) => destruct b
           end.
           ++ rewrite H. exists []. rewrite app_nil_r.
              split; [reflexivity|constructor].
           ++ destruct H as (_ & _ & Ho & _). eexists. split; [exact Ho|].
              apply acquired_fresh.
        -- rewrite H. exists []. rewrite app_nil_r.
           split; [reflexivity|constructor].
  - destruct confirmed.
    + pose proof (purchase_single_item_cases item n now m) as H.
      destruct (Wallet.balance (wallet m) <? Listing.price item).
      * rewrite H. exists []. rewrite app_nil_r. split; [reflexivity|constructor].
      * destruct H as (_ & _ & Ho). eexists. split; [exact Ho|].
        constructor; [now split|constructor].
    + exists []. rewrite app_nil_r. split; [reflexivity|constructor].
Qed.

(** X16: whatever is done in the marketplace tab (cart edits, top-ups,
    checkouts with any answers, refreshed prices and draws, quick
    purchases), the owned numbers held before are all still there, in the
    same order and unchanged, and every number added behind them is
    ['active'] and has never been used. *)
Theorem purchases_only_append (acts : list Action) (m : SMSMarketplace) :
  exists added,
    owned_numbers (run acts m) = owned_numbers m ++ added
    /\ Forall (fun n => Owned.status n = active /\ Owned.last_used n = "Never") added.
Proof.
  revert m. induction acts as [|a acts IH]; intros m.
  - exists []. rewrite app_nil_r. split; [reflexivity|constructor].
  - change (run (a :: acts) m) with (run acts (perform a m)).
    destruct (perform_appends a m) as (added1 & H1 & F1).
    destruct (IH (perform a m)) as (added2 & H2 & F2).
    exists (added1 ++ added2). rewrite H2, H1, <- app_assoc.
    split; [reflexivity|]. apply Forall_app. now split.
Qed.

(** ** The inventory and its file *)

Lemma acquired_none (rng : Rng) (now : Clock) (items : list Listing.t) :
  forall i, bought rng i items = [] -> acquired rng now i items = [].
Proof.
  induction items as [|item items IH]; intros i; cbn; [reflexivity|].
  destruct (rng i); [discriminate|apply IH].
Qed.

(** What a handler leaves of the file: it either leaves file and list
    alone, or ends on a write of the list. *)
Lemma save_follows (m0 m : SMSMarketplace) :
  disk_writable m = disk_writable m0 ->
  numbers_file m = numbers_file m0 ->
  disk_writable (_save_owned_numbers m) = disk_writable m0
  /\ ((numbers_file (_save_owned_numbers m) = numbers_file m0
       /\ owned_numbers (_save_owned_numbers m) = owned_numbers m0)
      \/ numbers_file (_save_owned_numbers m)
         = if disk_writable m0
           then Some (Json (owned_numbers (_save_owned_numbers m)))
           else numbers_file m0).
Proof.
  intros Hd Hf. unfold _save_owned_numbers.
  destruct (disk_writable m) eqn:Hw; rewrite <- Hd; cbn; rewrite ?Hw;
    (split; [reflexivity|right; first [reflexivity | exact Hf]]).
Qed.

Lemma process_purchase_follows (rng : Rng) (now : Clock) (m : SMSMarketplace) :
  disk_writable (fst (_process_purchase rng now m)) = disk_writable m
  /\ ((numbers_file (fst (_process_purchase rng now m)) = numbers_file m
       /\ owned_numbers (fst (_process_purchase rng now m)) = owned_numbers m)
      \/ numbers_file (fst (_process_purchase rng now m))
         = if disk_writable m
           then Some (Json (owned_numbers (fst (_process_purchase rng now m))))
           else numbers_file m).
Proof.
  unfold _process_purchase.
  destruct (Wallet.spend (total_price (cart m))
              (Wallet.CartPurchase (length (cart m))) (wallet m)) as [[id w]|e];
    cbn [bind try_except fst snd]; [|now split; [|left]].
  cbn [cart owned_numbers set_wallet]. rewrite process_items_spec. cbn [app].
  destruct (bought rng 0 (cart m)) as [|p ps] eqn:Hb.
  - rewrite (acquired_none rng now (cart m) 0 Hb), app_nil_r.
    cbn. split; [reflexivity|left; now split].
  - cbn [fst]. unfold _show_purchase_results.
    change (disk_writable (set_cart [] [] ?x)) with (disk_writable x).
    change (numbers_file (set_cart [] [] ?x)) with (numbers_file x).
    change (owned_numbers (set_cart [] [] ?x)) with (owned_numbers x).
    apply save_follows; reflexivity.
Qed.

Lemma perform_follows (a : Action) (m : SMSMarketplace) :
  disk_writable (perform a m) = disk_writable m
  /\ ((numbers_file (perform a m) = numbers_file m
       /\ owned_numbers (perform a m) = owned_numbers m)
      \/ numbers_file (perform a m)
         = if disk_writable m
           then Some (Json (owned_numbers (perform a m)))
           else numbers_file m).
Proof.
  destruct a as [c sel|b yes|ans refreshed rng now|item confirmed n now];
    cbn [perform].
  - split; [reflexivity|left; now split].
  - unfold _quick_topup. destruct yes; (split; [reflexivity|left; now split]).
  - unfold _checkout. destruct (cart m) as [|item rest] eqn:Hcart;
      [split; [reflexivity|left; now split]|].
    cbv zeta.
    destruct (Wallet.get_balance (wallet m) <? total_price (item :: rest)).
    + cbn [fst]. unfold _quick_topup.
      destruct (add_funds_now ans); [destruct (topup_confirmed ans)|];
        (split; [reflexivity|left; now split]).
    + destruct (purchase_confirmed ans); [|split; [reflexivity|left; now split]].
      pose proof (process_purchase_follows rng now
                    (set_cart (reprice refreshed (item :: rest))
                       (selected_numbers m) m)) as H.
      destruct (_process_purchase rng now
                  (set_cart (reprice refreshed (item :: rest))
                     (selected_numbers m) m)) as [m' o].
      exact H.
  - destruct confirmed; [|split; [reflexivity|left; now split]].
    unfold _purchase_single_item.
    destruct (Wallet.get_balance (wallet m) <? Listing.price item);
      [split; [reflexivity|left; now split]|].
    destruct (Wallet.spend (Listing.price item)
                (Wallet.SinglePurchase (Listing.service item)
                   (name (Listing.country item))) (wallet m)) as [[id w]|e];
      cbn [bind try_except fst snd]; [|split; [reflexivity|left; now split]].
    apply save_follows; reflexivity.
Qed.

Lemma inventory_step_follows (ev : InventoryEvent) (m : SMSMarketplace) :
  disk_writable (inventory_step ev m) = disk_writable m
  /\ ((numbers_file (inventory_step ev m) = numbers_file m
       /\ owned_numbers (inventory_step ev m) = owned_numbers m)
      \/ numbers_file (inventory_step ev m)
         = if disk_writable m
           then Some (Json (owned_numbers (inventory_step ev m)))
           else numbers_file m).
Proof.
  destruct ev as [a|selection now|selection now|selection yes];
    cbn [inventory_step].
  - apply perform_follows.
  - unfold _mark_selected_used.
    destruct (_get_selected_number_data selection m);
      [|split; [reflexivity|left; now split]].
    cbn [fst]. apply save_follows; reflexivity.
  - unfold _mark_telegram_ready, _mark_number_telegram_ready.
    destruct (_get_selected_number_data selection m);
      [|split; [reflexivity|left; now split]].
    cbn [fst]. apply save_follows; reflexivity.
  - unfold _delete_selected_number.
    destruct (_get_selected_number_data selection m);
      [|split; [reflexivity|left; now split]].
    destruct yes; [|split; [reflexivity|left; now split]].
    cbn [fst]. apply save_follows; reflexivity.
Qed.

(** X17: as long as the inventory file can be written, it holds the list
    in memory after every purchase, status change and deletion, so the
    "refresh" of the inventory tab, which reads the list back from the
    file, changes nothing. *)
Theorem inventory_file_stays_in_sync (evs : list InventoryEvent) (m : SMSMarketplace) :
  disk_writable m = true ->
  in_sync m ->
  in_sync (inventory_run evs m)
  /\ _refresh_my_numbers (inventory_run evs m) = Ok (inventory_run evs m).
Proof.
  intros Hw Hs.
  assert (H : disk_writable (inventory_run evs m) = true
              /\ in_sync (inventory_run evs m)).
  { revert m Hw Hs. induction evs as [|ev evs IH]; intros m Hw Hs; [now split|].
    change (inventory_run (ev :: evs) m)
      with (inventory_run evs (inventory_step ev m)).
    destruct (inventory_step_follows ev m) as [Hd Hf]. rewrite Hw in Hd, Hf.
    apply IH; [exact Hd|]. unfold in_sync in *.
    destruct Hf as [[Hf Ho]|Hf].
    - now rewrite Hf, Ho.
    - now rewrite Hf. }
  destruct H as [_ H]. split; [exact H|].
  unfold _refresh_my_numbers. unfold in_sync in H. rewrite H. cbn [bind].
  now destruct (inventory_run evs m).
Qed.

Lemma inventory_file_stays_in_sync_witness :
  disk_writable (Sample.inventory [Sample.n1 active; Sample.n2]) = true
  /\ in_sync (Sample.inventory [Sample.n1 active; Sample.n2])
  /\ in_sync
       (inventory_run
          [MarkUsed (Some ("+1 555 100-1000", "act_123456")) "2025-01-02 09:00:00";
           Buy (QuickPurchase Sample.item2 true 777 "2025-01-02 09:05:00");
           DeleteNumber (Some ("+1 416 200-2000", "act_654321")) true]
          (Sample.inventory [Sample.n1 active; Sample.n2])).
Proof.
  split; [reflexivity|]. split; [reflexivity|].
  exact (proj1 (inventory_file_stays_in_sync
                  [MarkUsed (Some ("+1 555 100-1000", "act_123456"))
                     "2025-01-02 09:00:00";
                   Buy (QuickPurchase Sample.item2 true 777 "2025-01-02 09:05:00");
                   DeleteNumber (Some ("+1 416 200-2000", "act_654321")) true]
                  (Sample.inventory [Sample.n1 active; Sample.n2])
                  eq_refl eq_refl)).
Defined.

(** X18: when the inventory file cannot be opened for writing, every
    handler still carries on as if the write had succeeded (the failure
    is only logged): the file keeps what it held, and the next "refresh"
    puts the list back to what the file holds, dropping every purchase,
    status change and deletion made since, while the wallet keeps the
    debits. *)
Theorem unwritten_changes_are_lost_on_refresh
    (evs : list InventoryEvent) (m : SMSMarketplace) (on_disk : list Owned.t) :
  disk_writable m = false ->
  _load_owned_numbers (numbers_file m) = Ok on_disk ->
  numbers_file (inventory_run evs m) = numbers_file m
  /\ exists m',
       _refresh_my_numbers (inventory_run evs m) = Ok m'
       /\ owned_numbers m' = on_disk
       /\ wallet m' = wallet (inventory_run evs m).
Proof.
  intros Hw Hl.
  assert (H : disk_writable (inventory_run evs m) = false
              /\ numbers_file (inventory_run evs m) = numbers_file m).
  { revert m Hw Hl. induction evs as [|ev evs IH]; intros m Hw Hl; [now split|].
    change (inventory_run (ev :: evs) m)
      with (inventory_run evs (inventory_step ev m)).
    destruct (inventory_step_follows ev m) as [Hd Hf]. rewrite Hw in Hd, Hf.
    assert (Hfile : numbers_file (inventory_step ev m) = numbers_file m)
      by (destruct Hf as [[Hf _]|Hf]; exact Hf).
    destruct (IH (inventory_step ev m) Hd) as [Hd' Hf'];
      [now rewrite Hfile|].
    split; [exact Hd'|]. now rewrite Hf'. }
  destruct H as [_ H]. split; [exact H|].
  unfold _refresh_my_numbers. rewrite H, Hl. cbn [bind].
  eexists. split; [reflexivity|]. now split.
Qed.

Lemma unwritten_changes_are_lost_on_refresh_witness :
  let m := {| wallet := Wallet.init; providers := []; cart := [];
              selected_numbers := []; owned_numbers := [Sample.n2];
              numbers_file := Some (Json [Sample.n2]);
              disk_writable := false |} in
  let evs := [Buy (QuickPurchase Sample.item1 true 123456 "2025-01-02 09:05:00")] in
  disk_writable m = false
  /\ _load_owned_numbers (numbers_file m) = Ok [Sample.n2]
  /\ length (owned_numbers (inventory_run evs m)) = 2%nat
  /\ numbers_file (inventory_run evs m) = numbers_file m.
Proof.
  cbv zeta. split; [reflexivity|]. split; [reflexivity|]. split; [reflexivity|].
  exact (proj1 (unwritten_changes_are_lost_on_refresh
                  [Buy (QuickPurchase Sample.item1 true 123456
                          "2025-01-02 09:05:00")]
                  {| wallet := Wallet.init; providers := []; cart := [];
                     selected_numbers := []; owned_numbers := [Sample.n2];
                     numbers_file := Some (Json [Sample.n2]);
                     disk_writable := false |}
                  [Sample.n2] eq_refl eq_refl)).
Defined.

(** ** Statistics of the inventory *)

Lemma count_status_middle (s : Status) (pre post : list Owned.t) (n : Owned.t) :
  count_status s (pre ++ n :: post)
  = (count_status s pre
     + (if status_eqb (Owned.status n) s then 1 else 0)
     + count_status s post)%nat.
Proof.
  unfold count_status. rewrite List.filter_app, length_app. cbn [List.filter].
  destruct (status_eqb (Owned.status n) s); cbn [length]; lia.
Qed.

Lemma marked_owned_numbers (nd : Owned.t) (s : Status) (when : string)
    (m : SMSMarketplace) (pre post : list Owned.t) :
  owned_numbers m = pre ++ nd :: post ->
  Forall (fun n => same_number n nd = false) pre ->
  same_number nd nd = true ->
  owned_numbers
    (_save_owned_numbers (set_owned_numbers (mark_first nd s when (owned_numbers m)) m))
  = pre ++ Owned.with_status s when nd :: post.
Proof.
  intros Ho Hpre Hnd. rewrite owned_save. cbn [owned_numbers set_owned_numbers].
  rewrite Ho. now apply mark_first_at.
Qed.

(** X19: the statistics of the inventory tab follow a status change of
    the selected number: the total stays, the status the number had
    loses one, and the new status gains one (nothing changes when the
    number already had the new status). Marking a number Telegram-ready
    raises "Telegram Ready" by one unless it was ready already; marking
    it used takes one from "Active" or from "Telegram Ready", whichever
    it was. *)
Theorem stats_follow_status_change
    (selection : option (string * string)) (now : string)
    (m : SMSMarketplace) (nd : Owned.t) :
  _get_selected_number_data selection m = Some nd ->
  let before := _update_numbers_stats m in
  let ready := _update_numbers_stats (fst (_mark_telegram_ready selection now m)) in
  let spent := _update_numbers_stats (fst (_mark_selected_used selection now m)) in
  total_numbers ready = total_numbers before
  /\ total_numbers spent = total_numbers before
  /\ (telegram_ready_numbers ready
      + (if status_eqb (Owned.status nd) telegram_ready then 1 else 0)
      = telegram_ready_numbers before + 1)%nat
  /\ (active_numbers ready + (if status_eqb (Owned.status nd) active then 1 else 0)
      = active_numbers before)%nat
  /\ (active_numbers spent + (if status_eqb (Owned.status nd) active then 1 else 0)
      = active_numbers before)%nat
  /\ (telegram_ready_numbers spent
      + (if status_eqb (Owned.status nd) telegram_ready then 1 else 0)
      = telegram_ready_numbers before)%nat.
Proof.
  intros Hsel. cbv zeta.
  destruct (selected_number_is_first selection m nd Hsel)
    as (pre & post & Ho & Hpre & Hnd).
  unfold _mark_telegram_ready, _mark_number_telegram_ready, _mark_selected_used.
  rewrite Hsel. cbn [fst]. unfold _update_numbers_stats.
  cbn [total_numbers active_numbers telegram_ready_numbers].
  rewrite !(marked_owned_numbers nd _ now m pre post Ho Hpre Hnd), Ho.
  rewrite !count_status_middle, !length_app. cbn [length Owned.status Owned.with_status].
  destruct (Owned.status nd); cbn [status_eqb]; repeat split; lia.
Qed.

Lemma stats_follow_status_change_witness :
  _get_selected_number_data (Some ("+1 555 100-1000", "act_123456"))
    (Sample.inventory [Sample.n1 active; Sample.n2])
  = Some (Sample.n1 active)
  /\ (active_numbers
        (_update_numbers_stats
           (fst (_mark_selected_used (Some ("+1 555 100-1000", "act_123456"))
                   "2025-01-02 09:00:00"
                   (Sample.inventory [Sample.n1 active; Sample.n2]))))
      + 1
      = active_numbers
          (_update_numbers_stats (Sample.inventory [Sample.n1 active; Sample.n2])))%nat.
Proof.
  split; [reflexivity|].
  pose proof (stats_follow_status_change
                (Some ("+1 555 100-1000", "act_123456")) "2025-01-02 09:00:00"
                (Sample.inventory [Sample.n1 active; Sample.n2])
                (Sample.n1 active) eq_refl) as H.
  cbv zeta in H. destruct H as (_ & _ & _ & _ & H & _). exact H.
Defined.

(** ** The inventory view *)

Lemma filtered_owned_numbers_filter (v : NumberFilters) (m : SMSMarketplace) :
  _get_filtered_owned_numbers v m
  = List.filter
      (fun n =>
         (String.eqb (status_filter_var v) "all"
          || String.eqb (status_name (Owned.status n)) (status_filter_var v))
         && (String.eqb (my_service_filter_var v) "all"
             || String.eqb (Owned.service n) (my_service_filter_var v)))
      (owned_numbers m).
Proof.
  unfold _get_filtered_owned_numbers. cbv zeta.
  destruct (String.eqb (status_filter_var v) "all");
    destruct (String.eqb (my_service_filter_var v) "all"); cbn [negb orb].
  - symmetry. apply filter_all.
  - apply List.filter_ext. now intros n.
  - apply List.filter_ext. intros n. now rewrite andb_true_r.
  - apply filter_twice.
Qed.

Lemma sort_owned_numbers_perm (v : NumberFilters) (l : list Owned.t) :
  Permutation (_sort_owned_numbers v l) l.
Proof.
  unfold _sort_owned_numbers. cbv zeta.
  repeat (destruct (String.eqb (numbers_sort_var v) _); [apply stable_sort_perm|]).
  reflexivity.
Qed.

(** The rows under the ['active'] filter are as many as the "Active"
    label says. *)
Lemma active_rows_count (key : string) (m : SMSMarketplace) :
  length (_populate_numbers_list
            {| status_filter_var := "active"; my_service_filter_var := "all";
               numbers_sort_var := key |} m)
  = active_numbers (_update_numbers_stats m).
Proof.
  unfold _populate_numbers_list.
  rewrite (Permutation_length (sort_owned_numbers_perm _ _)).
  rewrite filtered_owned_numbers_filter. cbn [status_filter_var my_service_filter_var].
  cbn [_update_numbers_stats active_numbers]. unfold count_status.
  f_equal. apply List.filter_ext. intros n. now destruct (Owned.status n).
Qed.

(** X20: the inventory tab lists exactly the owned numbers that pass the
    status and the service filter (each "all" or an exact match), each as
    often as it is owned, whatever the sort key; with the status filter
    on ['active'] and the service filter on ['all'] it shows as many rows
    as the "Active" statistic counts. By price the rows come dearest
    first, by purchase date latest first, and numbers bought at the same
    date keep their inventory order; a sort key outside the five known
    ones leaves the inventory order. *)
Theorem inventory_view_shows_matching_numbers
    (status service : string) (m : SMSMarketplace) :
  let view key :=
    _populate_numbers_list
      {| status_filter_var := status; my_service_filter_var := service;
         numbers_sort_var := key |} m in
  let matching :=
    List.filter
      (fun n =>
         (String.eqb status "all" || String.eqb (status_name (Owned.status n)) status)
         && (String.eqb service "all" || String.eqb (Owned.service n) service))
      (owned_numbers m) in
  (forall key, Permutation (view key) matching)
  /\ (forall key, length (view key) <= total_numbers (_update_numbers_stats m))%nat
  /\ Sorted (fun a b => Owned.price b <= Owned.price a) (view "price")
  /\ Sorted (fun a b => String.leb (Owned.purchase_date b) (Owned.purchase_date a) = true)
       (view "purchase_date")
  /\ (forall d,
        List.filter (fun n => String.eqb (Owned.purchase_date n) d) (view "purchase_date")
        = List.filter (fun n => String.eqb (Owned.purchase_date n) d) matching)
  /\ (forall key,
        ~ In key ["purchase_date"; "service"; "country"; "status"; "price"] ->
        view key = matching)
  /\ (forall key,
        length (_populate_numbers_list
                  {| status_filter_var := "active"; my_service_filter_var := "all";
                     numbers_sort_var := key |} m)
        = active_numbers (_update_numbers_stats m)).
Proof.
  cbv zeta. unfold _populate_numbers_list.
  pose proof (fun key =>
                filtered_owned_numbers_filter
                  {| status_filter_var := status; my_service_filter_var := service;
                     numbers_sort_var := key |} m) as Hf.
  cbn [status_filter_var my_service_filter_var] in Hf.
  split; [|split; [|split; [|split; [|split; [|split]]]]];
    [..|intros key; apply active_rows_count].
  - intros key. rewrite Hf. apply sort_owned_numbers_perm.
  - intros key. rewrite Hf.
    rewrite (Permutation_length (sort_owned_numbers_perm _ _)).
    cbn [_update_numbers_stats total_numbers]. apply List.filter_length_le.
  - rewrite Hf.
    match goal with
    | |- Sorted _ (_sort_owned_numbers _ ?l) =>
        change (_sort_owned_numbers _ l)
          with (stable_sort (fun a b => Owned.price b <=? Owned.price a) l)
    end.
    eapply Sorted_weaken; [|apply stable_sort_Sorted].
    + intros a b. apply Z.leb_le.
    + intros a b. rewrite !Z.leb_le. lia.
  - rewrite Hf.
    match goal with
    | |- Sorted _ (_sort_owned_numbers _ ?l) =>
        change (_sort_owned_numbers _ l)
          with (stable_sort
                  (fun a b => String.leb (Owned.purchase_date b) (Owned.purchase_date a))
                  l)
    end.
    apply stable_sort_Sorted. intros a b. apply String.leb_total.
  - intros d. rewrite Hf.
    match goal with
    | |- List.filter _ (_sort_owned_numbers _ ?l) = _ =>
        change (_sort_owned_numbers _ l)
          with (stable_sort
                  (fun a b => String.leb (Owned.purchase_date b) (Owned.purchase_date a))
                  l)
    end.
    apply stable_sort_stable. intros x y Hx Hy.
    apply String.eqb_eq in Hx, Hy. rewrite Hx, Hy.
    destruct (String.leb_total d d) as [H|H]; exact H.
  - intros key Hkey. rewrite Hf. unfold _sort_owned_numbers. cbv zeta.
    cbn [numbers_sort_var].
    repeat match goal with
           | |- context [String.eqb key ?k] =>
               destruct (String.eqb_spec key k) as [->|_];
               [exfalso; apply Hkey; cbn; tauto|]
           end.
    reflexivity.
Qed.

Lemma inventory_view_shows_matching_numbers_witness :
  ~ In "number" ["purchase_date"; "service"; "country"; "status"; "price"]
  /\ _populate_numbers_list
       {| status_filter_var := "active"; my_service_filter_var := "all";
          numbers_sort_var := "number" |}
       (Sample.inventory [Sample.n1 used; Sample.n2])
     = [Sample.n2].
Proof.
  assert (H : ~ In "number" ["purchase_date"; "service"; "country"; "status"; "price"])
    by (intros [H|[H|[H|[H|[H|[]]]]]]; discriminate H).
  split; [exact H|].
  pose proof (inventory_view_shows_matching_numbers "active" "all"
                (Sample.inventory [Sample.n1 used; Sample.n2])) as K.
  cbv zeta in K. destruct K as (_ & _ & _ & _ & _ & K & _).
  exact (K "number" H).
Defined.
